(** * Task-manager backend: the daily reset and the state upsert

    A shallow embedding of the two entry points of the repository,
    [src/api/state.js] (the serverless handler) and [src/server.js] (the
    Express application; the unnamed third source file is an earlier copy
    of it with the same schema, reset and routes), and the properties of
    the daily reset ("reconciliation"), of the PUT overlay, of the GET and
    PUT handlers, of the CORS policy and of the cached connection.

    Conventions of the embedding:
    - JSON values are [JsVal]; a JS object used as a property map is a
      [gmap string JsVal].
    - A document follows the Mongoose schema of its file: [Array] paths are
      lists, [Object] paths are property maps, [String] paths are strings
      and the [Number] path is an integer.
    - [getISTDayKey()] reads the clock; every function that calls it takes
      the string it returned as an argument ([todayIST]).
    - A failed connection and a rejected save are modelled (the [catch]
      branches answering 500), the save as a parameter; a [findOne] that
      fails on a live connection, the [createdAt]/[updatedAt] stamps
      Mongoose maintains on save and the Express middleware chain are
      outside the embedding. *)

From Stdlib Require Import ZArith.
From stdpp Require Import gmap strings list fin_maps.

#[local] Set Warnings "-register-all".
#[local] Open Scope Z_scope.
#[local] Open Scope string_scope.

(* ------------------------------------------------------------------ *)
(** ** JavaScript values *)
(* ------------------------------------------------------------------ *)

Inductive JsVal : Type :=
  | JNull
  | JBool (b : bool)
  | JNum (n : Z)
  | JStr (s : string)
  | JArr (l : list JsVal)
  | JObj (o : gmap string JsVal).

(** A plain JS object: its own properties. *)
Abbreviation Obj := (gmap string JsVal).

(** An object literal [{ k1: v1, k2: v2, ... }]. *)
Definition obj (kvs : list (string * JsVal)) : Obj := list_to_map kvs.

(** What reading [payload.f] can give: [undefined] when the key is absent,
    [null], or a value. *)
Inductive JsOpt (A : Type) : Type :=
  | Undefined
  | Null
  | Value (a : A).
Arguments Undefined {A}.
Arguments Null {A}.
Arguments Value {A} a.

(** [x ?? d] *)
Definition nullish {A : Type} (x : JsOpt A) (d : A) : A :=
  match x with
  | Value a => a
  | Undefined | Null => d
  end.
Infix "??" := nullish (at level 45, left associativity).


(** [xs?.length ? xs : dflt]. An [Array] path of the schema always holds
    an array (its default is the empty one), so [xs] is a list. *)
Definition nonEmptyOr {A : Type} (xs dflt : list A) : list A :=
  match xs with
  | [] => dflt
  | _ :: _ => xs
  end.

(* ------------------------------------------------------------------ *)
(** ** Checklist items, subjects and the default templates

    Both files declare the same three templates and the same two arrow
    functions inside [applyISTDailyReset]. *)
(* ------------------------------------------------------------------ *)

(** [(t) => ({ ...t, completed: false })]: every own property is copied,
    then [completed] is set. *)
Definition resetTask (t : Obj) : Obj := <["completed" := JBool false]> t.

(** A mind subject. [props] holds every own property other than [units]
    ([id], [label], [links] and whatever else the client stored); [units] is
    [None] when the property is absent or null. *)
Record Subject : Type := mkSubject {
  props : Obj;
  units : option (list Obj);
}.

(** [(s) => ({ ...s, units: (s.units || []).map((u) => ({ ...u, completed: false })) })] *)
Definition resetSubject (s : Subject) : Subject :=
  {| props := props s;
     units := Some (resetTask <$> default [] (units s)) |}.

Definition task (id : Z) (label : string) : Obj :=
  obj [("id", JNum id); ("label", JStr label); ("completed", JBool false)].

Definition unit_ (id label : string) : Obj :=
  obj [("id", JStr id); ("label", JStr label); ("completed", JBool false)].

Definition defaultBodyTasks : list Obj :=
  [ task 1 "Push ups";
    task 2 "Pull ups";
    task 3 "Crunches";
    task 4 "Crucifix";
    task 5 "Russian Twists";
    task 6 "Biceps";
    task 7 "Shoulders";
    task 8 "Triceps";
    task 9 "Forearms";
    task 10 "Calisthenics" ].

Definition defaultSkinTasks : list Obj :=
  [ task 1 "Body Wash";
    task 2 "Face Wash";
    task 3 "Clean";
    task 4 "Face Serum";
    task 5 "Eye Blow Cleaning" ].

Definition defaultMindSubjects : list Subject :=
  [ {| props := obj [("id", JStr "dsa"); ("label", JStr "DSA"); ("links", JArr [])];
       units := Some [ unit_ "dsa-u1" "U1";
                       unit_ "dsa-u2" "U2";
                       unit_ "dsa-u3" "U3";
                       unit_ "dsa-u4" "U4" ] |} ].

(** The schema default of [reminderSettings]. *)
Definition defaultReminderSettings : Obj :=
  obj [("enabled", JBool true); ("skinTime", JStr "21:00"); ("bodyTime", JStr "19:00")].

(* ------------------------------------------------------------------ *)
(** ** Requests *)
(* ------------------------------------------------------------------ *)

(** The JSON body of a PUT, read field by field. A body may carry all
    eleven keys whichever entry point receives it. *)
Record Payload : Type := mkPayload {
  p_plannerTasks : JsOpt (list JsVal);
  p_bodyTasks : JsOpt (list Obj);
  p_skinTasks : JsOpt (list Obj);
  p_skinSessions : JsOpt Z;
  p_mindSubjects : JsOpt (list Subject);
  p_reminderSettings : JsOpt Obj;
  p_mindReminderTimes : JsOpt Obj;
  p_mindReminderEnabled : JsOpt Obj;
  p_mindLastReminderDay : JsOpt Obj;
  p_weightInput : JsOpt string;
  p_muscleProgress : JsOpt Obj;
}.

(** [{}] *)
Definition emptyPayload : Payload :=
  {| p_plannerTasks := Undefined;
     p_bodyTasks := Undefined;
     p_skinTasks := Undefined;
     p_skinSessions := Undefined;
     p_mindSubjects := Undefined;
     p_reminderSettings := Undefined;
     p_mindReminderTimes := Undefined;
     p_mindReminderEnabled := Undefined;
     p_mindLastReminderDay := Undefined;
     p_weightInput := Undefined;
     p_muscleProgress := Undefined |}.

(** [String(req.query.userId || "demo")]: the empty string is falsy. *)
Definition userIdOf (q : option string) : string :=
  match q with
  | Some s => if bool_decide (s = "") then "demo" else s
  | None => "demo"
  end.

Inductive Method : Type := GET | PUT | OPTIONS | OtherMethod.

Record Request : Type := mkRequest {
  method : Method;
  queryUserId : option string;
  body : option Payload;
}.

(* ------------------------------------------------------------------ *)
(** ** src/api/state.js: the serverless handler *)
(* ------------------------------------------------------------------ *)

Module Api.

(** [AppStateSchema] *)
Record AppState : Type := mkAppState {
  userId : string;
  plannerTasks : list JsVal;
  bodyTasks : list Obj;
  skinTasks : list Obj;
  skinSessions : Z;
  mindSubjects : list Subject;
  reminderSettings : Obj;
  mindReminderTimes : Obj;
  mindReminderEnabled : Obj;
  mindLastReminderDay : Obj;
  weightInput : string;
  muscleProgress : Obj;
  istDayKey : string;
}.

(** [new AppState({ userId })]: every other path takes its schema default. *)
Definition newAppState (uid : string) : AppState :=
  {| userId := uid;
     plannerTasks := [];
     bodyTasks := [];
     skinTasks := [];
     skinSessions := 0;
     mindSubjects := [];
     reminderSettings := defaultReminderSettings;
     mindReminderTimes := ∅;
     mindReminderEnabled := ∅;
     mindLastReminderDay := ∅;
     weightInput := "";
     muscleProgress := ∅;
     istDayKey := "" |}.

(** The document of [AppState.create({...})] in the GET branch;
    [createdKey] is what [getISTDayKey()] returned there. *)
Definition createAppState (uid createdKey : string) : AppState :=
  {| userId := uid;
     plannerTasks := [];
     bodyTasks := defaultBodyTasks;
     skinTasks := defaultSkinTasks;
     skinSessions := 0;
     mindSubjects := defaultMindSubjects;
     reminderSettings := defaultReminderSettings;
     mindReminderTimes := ∅;
     mindReminderEnabled := ∅;
     mindLastReminderDay := ∅;
     weightInput := "";
     muscleProgress := ∅;
     istDayKey := createdKey |}.

(** [applyISTDailyReset(doc)], with [todayIST] the value of
    [getISTDayKey()] at the call. *)
Definition applyISTDailyReset (todayIST : string) (doc : AppState) : AppState :=
  if bool_decide (istDayKey doc ≠ todayIST) then
    {| userId := userId doc;
       plannerTasks := plannerTasks doc;
       bodyTasks := resetTask <$> nonEmptyOr (bodyTasks doc) defaultBodyTasks;
       skinTasks := resetTask <$> nonEmptyOr (skinTasks doc) defaultSkinTasks;
       skinSessions := skinSessions doc;
       mindSubjects := resetSubject <$> nonEmptyOr (mindSubjects doc) defaultMindSubjects;
       reminderSettings := reminderSettings doc;
       mindReminderTimes := mindReminderTimes doc;
       mindReminderEnabled := mindReminderEnabled doc;
       mindLastReminderDay := mindLastReminderDay doc;
       weightInput := weightInput doc;
       muscleProgress := muscleProgress doc;
       istDayKey := todayIST |}
  else doc.

(** The eleven assignments [doc.f = payload.f ?? doc.f] of the PUT branch. *)
Definition overlay (payload : Payload) (doc : AppState) : AppState :=
  {| userId := userId doc;
     plannerTasks := p_plannerTasks payload ?? plannerTasks doc;
     bodyTasks := p_bodyTasks payload ?? bodyTasks doc;
     skinTasks := p_skinTasks payload ?? skinTasks doc;
     skinSessions := p_skinSessions payload ?? skinSessions doc;
     mindSubjects := p_mindSubjects payload ?? mindSubjects doc;
     reminderSettings := p_reminderSettings payload ?? reminderSettings doc;
     mindReminderTimes := p_mindReminderTimes payload ?? mindReminderTimes doc;
     mindReminderEnabled := p_mindReminderEnabled payload ?? mindReminderEnabled doc;
     mindLastReminderDay := p_mindLastReminderDay payload ?? mindLastReminderDay doc;
     weightInput := p_weightInput payload ?? weightInput doc;
     muscleProgress := p_muscleProgress payload ?? muscleProgress doc;
     istDayKey := istDayKey doc |}.

Inductive Response : Type :=
  | NoContent204
  | Doc200 (doc : AppState)
  | Ok200
  | MethodNotAllowed405.

(** The collection, keyed by the unique [userId]. *)
Abbreviation Db := (gmap string AppState).

(** The GET branch, idealised: the connection is taken for granted and
    [doc.save()] is taken to store the document as it is
    ([ApiServe.getBranch] has the save as it is). [getISTDayKey()] is read
    once for the created document ([createdKey]) and once inside the reset
    ([todayIST]). *)
Definition handleGet (createdKey todayIST : string) (uid : string) (db : Db)
  : Db * Response :=
  let doc := default (createAppState uid createdKey) (db !! uid) in
  let doc := applyISTDailyReset todayIST doc in
  (<[uid := doc]> db, Doc200 doc).

(** The PUT branch, idealised in the same way ([ApiServe.putBranch] has
    the save as it is). *)
Definition handlePut (todayIST : string) (uid : string) (body : option Payload) (db : Db)
  : Db * Response :=
  let payload := default emptyPayload body in
  let doc := default (newAppState uid) (db !! uid) in
  let doc := applyISTDailyReset todayIST doc in
  let doc := overlay payload doc in
  (<[uid := doc]> db, Ok200).

(** [handler(req, res)] once CORS headers are set and the connection is
    up, over the idealised branches ([ApiServe.serve] is the whole
    handler). *)
Definition handler (createdKey todayIST : string) (req : Request) (db : Db)
  : Db * Response :=
  match method req with
  | OPTIONS => (db, NoContent204)
  | GET => handleGet createdKey todayIST (userIdOf (queryUserId req)) db
  | PUT => handlePut todayIST (userIdOf (queryUserId req)) (body req) db
  | OtherMethod => (db, MethodNotAllowed405)
  end.

End Api.

(* ------------------------------------------------------------------ *)
(** ** src/server.js: the Express application

    Its schema has no [mindLastReminderDay], [weightInput] or
    [muscleProgress] path, and its PUT route assigns eight fields. *)
(* ------------------------------------------------------------------ *)

Module Server.

(** [AppStateSchema] *)
Record AppState : Type := mkAppState {
  userId : string;
  plannerTasks : list JsVal;
  bodyTasks : list Obj;
  skinTasks : list Obj;
  skinSessions : Z;
  mindSubjects : list Subject;
  reminderSettings : Obj;
  mindReminderTimes : Obj;
  mindReminderEnabled : Obj;
  istDayKey : string;
}.

(** [new AppState({ userId })] *)
Definition newAppState (uid : string) : AppState :=
  {| userId := uid;
     plannerTasks := [];
     bodyTasks := [];
     skinTasks := [];
     skinSessions := 0;
     mindSubjects := [];
     reminderSettings := defaultReminderSettings;
     mindReminderTimes := ∅;
     mindReminderEnabled := ∅;
     istDayKey := "" |}.

(** The document of [AppState.create({...})] in the GET route. *)
Definition createAppState (uid createdKey : string) : AppState :=
  {| userId := uid;
     plannerTasks := [];
     bodyTasks := defaultBodyTasks;
     skinTasks := defaultSkinTasks;
     skinSessions := 0;
     mindSubjects := defaultMindSubjects;
     reminderSettings := defaultReminderSettings;
     mindReminderTimes := ∅;
     mindReminderEnabled := ∅;
     istDayKey := createdKey |}.

(** [applyISTDailyReset(doc)] *)
Definition applyISTDailyReset (todayIST : string) (doc : AppState) : AppState :=
  if bool_decide (istDayKey doc ≠ todayIST) then
    {| userId := userId doc;
       plannerTasks := plannerTasks doc;
       bodyTasks := resetTask <$> nonEmptyOr (bodyTasks doc) defaultBodyTasks;
       skinTasks := resetTask <$> nonEmptyOr (skinTasks doc) defaultSkinTasks;
       skinSessions := skinSessions doc;
       mindSubjects := resetSubject <$> nonEmptyOr (mindSubjects doc) defaultMindSubjects;
       reminderSettings := reminderSettings doc;
       mindReminderTimes := mindReminderTimes doc;
       mindReminderEnabled := mindReminderEnabled doc;
       istDayKey := todayIST |}
  else doc.

(** The eight assignments [doc.f = payload.f ?? doc.f] of the PUT route. *)
Definition overlay (payload : Payload) (doc : AppState) : AppState :=
  {| userId := userId doc;
     plannerTasks := p_plannerTasks payload ?? plannerTasks doc;
     bodyTasks := p_bodyTasks payload ?? bodyTasks doc;
     skinTasks := p_skinTasks payload ?? skinTasks doc;
     skinSessions := p_skinSessions payload ?? skinSessions doc;
     mindSubjects := p_mindSubjects payload ?? mindSubjects doc;
     reminderSettings := p_reminderSettings payload ?? reminderSettings doc;
     mindReminderTimes := p_mindReminderTimes payload ?? mindReminderTimes doc;
     mindReminderEnabled := p_mindReminderEnabled payload ?? mindReminderEnabled doc;
     istDayKey := istDayKey doc |}.

Inductive Response : Type :=
  | Doc200 (doc : AppState)
  | Ok200.

Abbreviation Db := (gmap string AppState).


(** [app.put("/api/state", ...)], idealised in the same way
    ([ExpressServe.putRoute] is the route as it is). *)
Definition putState (todayIST : string) (q : option string) (body : option Payload) (db : Db)
  : Db * Response :=
  let uid := userIdOf q in
  let payload := default emptyPayload body in
  let doc := default (newAppState uid) (db !! uid) in
  let doc := applyISTDailyReset todayIST doc in
  let doc := overlay payload doc in
  (<[uid := doc]> db, Ok200).

End Server.

(* ------------------------------------------------------------------ *)
(** ** The reconciler of either entry point

    The specification calls [applyISTDailyReset] "reconcile"; the
    properties below are stated once for both copies. *)
(* ------------------------------------------------------------------ *)

Inductive EntryPoint : Type :=
  | ApiState        (* src/api/state.js *)
  | ExpressServer.  (* src/server.js *)

Definition Doc (e : EntryPoint) : Type :=
  match e with
  | ApiState => Api.AppState
  | ExpressServer => Server.AppState
  end.

Definition reconcile (e : EntryPoint) (todayIST : string) : Doc e → Doc e :=
  match e with
  | ApiState => Api.applyISTDailyReset todayIST
  | ExpressServer => Server.applyISTDailyReset todayIST
  end.

Definition dayKey {e : EntryPoint} : Doc e → string :=
  match e with
  | ApiState => Api.istDayKey
  | ExpressServer => Server.istDayKey
  end.

Definition bodyTasksOf {e : EntryPoint} : Doc e → list Obj :=
  match e with
  | ApiState => Api.bodyTasks
  | ExpressServer => Server.bodyTasks
  end.

Definition skinTasksOf {e : EntryPoint} : Doc e → list Obj :=
  match e with
  | ApiState => Api.skinTasks
  | ExpressServer => Server.skinTasks
  end.

Definition mindSubjectsOf {e : EntryPoint} : Doc e → list Subject :=
  match e with
  | ApiState => Api.mindSubjects
  | ExpressServer => Server.mindSubjects
  end.

Definition skinSessionsOf {e : EntryPoint} : Doc e → Z :=
  match e with
  | ApiState => Api.skinSessions
  | ExpressServer => Server.skinSessions
  end.

(* ------------------------------------------------------------------ *)
(** ** The day key, as far as the repository computes it

    [getISTDayKey()] asks [Intl.DateTimeFormat] (locale en-US, time zone
    Asia/Kolkata, numeric year, two-digit month and day) for the parts of
    [new Date()]; the calendar arithmetic is the platform's. What the
    repository adds is the selection of three parts and their assembly. *)
(* ------------------------------------------------------------------ *)

Record Part : Type := mkPart {
  ptype : string;
  pvalue : string;
}.

(** [parts.find((p) => p.type === ty)?.value || dflt] *)
Definition partValueOr (ty dflt : string) (parts : list Part) : string :=
  match List.find (λ p, bool_decide (ptype p = ty)) parts with
  | Some p => if bool_decide (pvalue p = "") then dflt else pvalue p
  | None => dflt
  end.

(** The body of [getISTDayKey] after [formatToParts] returned [parts]. *)
Definition getISTDayKey (parts : list Part) : string :=
  partValueOr "year" "0000" parts +:+ "-" +:+
  partValueOr "month" "00" parts +:+ "-" +:+
  partValueOr "day" "00" parts.

(* ------------------------------------------------------------------ *)
(** ** Vocabulary of the properties *)
(* ------------------------------------------------------------------ *)

(** [(s.units || [])] *)
Definition unitsOf (s : Subject) : list Obj := default [] (units s).

(** Item [t'] is item [t] up to its [completed] flag. *)
Definition itemKept (t t' : Obj) : Prop :=
  t' !! "id" = t !! "id" ∧
  t' !! "label" = t !! "label" ∧
  ∀ k : string, k ≠ "completed" → t' !! k = t !! k.

(** Subject [s'] is subject [s] up to the [completed] flags of its units. *)
Definition subjectKept (s s' : Subject) : Prop :=
  props s' !! "id" = props s !! "id" ∧
  props s' !! "label" = props s !! "label" ∧
  props s' !! "links" = props s !! "links" ∧
  props s' = props s ∧
  length (unitsOf s') = length (unitsOf s) ∧
  ∀ (j : nat) (u : Obj), unitsOf s !! j = Some u →
    ∃ u', unitsOf s' !! j = Some u' ∧ itemKept u u'.

Definition notCompleted (t : Obj) : Prop := t !! "completed" = Some (JBool false).

(** Order of day keys: the lexicographic order of strings. *)
Definition dayKeyLe (a b : string) : Prop := String.leb a b = true.

(** One assignment [doc.f = payload.f ?? doc.f], seen from outside: a
    provided value replaces the reconciled one, anything else keeps it. *)
Definition overlaid {A : Type} (p : JsOpt A) (reconciled result : A) : Prop :=
  match p with
  | Value v => result = v
  | Undefined | Null => result = reconciled
  end.




(** Field by field, [res] is [rec] overlaid with [payload]: the eleven
    fields of the serverless handler. [rel] is [overlaid] or
    [keptOnNullish]. *)
Definition apiFields (rel : ∀ A : Type, JsOpt A → A → A → Prop)
    (payload : Payload) (rec res : Api.AppState) : Prop :=
  rel _ (p_plannerTasks payload) (Api.plannerTasks rec) (Api.plannerTasks res) ∧
  rel _ (p_bodyTasks payload) (Api.bodyTasks rec) (Api.bodyTasks res) ∧
  rel _ (p_skinTasks payload) (Api.skinTasks rec) (Api.skinTasks res) ∧
  rel _ (p_skinSessions payload) (Api.skinSessions rec) (Api.skinSessions res) ∧
  rel _ (p_mindSubjects payload) (Api.mindSubjects rec) (Api.mindSubjects res) ∧
  rel _ (p_reminderSettings payload) (Api.reminderSettings rec) (Api.reminderSettings res) ∧
  rel _ (p_mindReminderTimes payload) (Api.mindReminderTimes rec) (Api.mindReminderTimes res) ∧
  rel _ (p_mindReminderEnabled payload) (Api.mindReminderEnabled rec) (Api.mindReminderEnabled res) ∧
  rel _ (p_mindLastReminderDay payload) (Api.mindLastReminderDay rec) (Api.mindLastReminderDay res) ∧
  rel _ (p_weightInput payload) (Api.weightInput rec) (Api.weightInput res) ∧
  rel _ (p_muscleProgress payload) (Api.muscleProgress rec) (Api.muscleProgress res).

(** The eight fields of the Express route. *)
Definition expressFields (rel : ∀ A : Type, JsOpt A → A → A → Prop)
    (payload : Payload) (rec res : Server.AppState) : Prop :=
  rel _ (p_plannerTasks payload) (Server.plannerTasks rec) (Server.plannerTasks res) ∧
  rel _ (p_bodyTasks payload) (Server.bodyTasks rec) (Server.bodyTasks res) ∧
  rel _ (p_skinTasks payload) (Server.skinTasks rec) (Server.skinTasks res) ∧
  rel _ (p_skinSessions payload) (Server.skinSessions rec) (Server.skinSessions res) ∧
  rel _ (p_mindSubjects payload) (Server.mindSubjects rec) (Server.mindSubjects res) ∧
  rel _ (p_reminderSettings payload) (Server.reminderSettings rec) (Server.reminderSettings res) ∧
  rel _ (p_mindReminderTimes payload) (Server.mindReminderTimes rec) (Server.mindReminderTimes res) ∧
  rel _ (p_mindReminderEnabled payload) (Server.mindReminderEnabled rec) (Server.mindReminderEnabled res).

(** Two payloads that agree on the eight keys the Express route reads. *)
Definition sameExpressKeys (p p' : Payload) : Prop :=
  p_plannerTasks p = p_plannerTasks p' ∧
  p_bodyTasks p = p_bodyTasks p' ∧
  p_skinTasks p = p_skinTasks p' ∧
  p_skinSessions p = p_skinSessions p' ∧
  p_mindSubjects p = p_mindSubjects p' ∧
  p_reminderSettings p = p_reminderSettings p' ∧
  p_mindReminderTimes p = p_mindReminderTimes p' ∧
  p_mindReminderEnabled p = p_mindReminderEnabled p'.

(** The record a PUT starts from: the stored one, or a new one. *)
Definition apiStored (uid : string) (db : Api.Db) : Api.AppState :=
  default (Api.newAppState uid) (db !! uid).

Definition expressStored (uid : string) (db : Server.Db) : Server.AppState :=
  default (Server.newAppState uid) (db !! uid).

(* ------------------------------------------------------------------ *)
(** ** Sample documents and payloads *)
(* ------------------------------------------------------------------ *)

(** A record whose first body task was ticked on 2024-01-01. *)
Definition aliceJan1 : Api.AppState :=
  {| Api.userId := "alice";
     Api.plannerTasks := [];
     Api.bodyTasks := [ obj [("id", JNum 1); ("label", JStr "Push ups"); ("completed", JBool true)];
                        task 2 "Pull ups" ];
     Api.skinTasks := defaultSkinTasks;
     Api.skinSessions := 3;
     Api.mindSubjects :=
       [ {| props := obj [("id", JStr "os"); ("label", JStr "OS"); ("links", JArr [JStr "https://example.org"])];
            units := Some [ obj [("id", JStr "os-u1"); ("label", JStr "U1"); ("completed", JBool true)] ] |} ];
     Api.reminderSettings := defaultReminderSettings;
     Api.mindReminderTimes := ∅;
     Api.mindReminderEnabled := ∅;
     Api.mindLastReminderDay := ∅;
     Api.weightInput := "";
     Api.muscleProgress := ∅;
     Api.istDayKey := "2024-01-01" |}.

(** A record already stamped 2024-01-02 whose checklists the client
    emptied that day (a PUT of empty arrays stores them as they are). *)
Definition emptiedJan2 : Api.AppState :=
  {| Api.userId := "alice";
     Api.plannerTasks := [];
     Api.bodyTasks := [];
     Api.skinTasks := [];
     Api.skinSessions := 3;
     Api.mindSubjects := [];
     Api.reminderSettings := defaultReminderSettings;
     Api.mindReminderTimes := ∅;
     Api.mindReminderEnabled := ∅;
     Api.mindLastReminderDay := ∅;
     Api.weightInput := "";
     Api.muscleProgress := ∅;
     Api.istDayKey := "2024-01-02" |}.

(** [{ skinSessions: 5 }] *)
Definition skinSessions5 : Payload :=
  {| p_plannerTasks := Undefined;
     p_bodyTasks := Undefined;
     p_skinTasks := Undefined;
     p_skinSessions := Value 5;
     p_mindSubjects := Undefined;
     p_reminderSettings := Undefined;
     p_mindReminderTimes := Undefined;
     p_mindReminderEnabled := Undefined;
     p_mindLastReminderDay := Undefined;
     p_weightInput := Undefined;
     p_muscleProgress := Undefined |}.

(** [{ weightInput: w }] *)
Definition weightOnly (w : string) : Payload :=
  {| p_plannerTasks := Undefined;
     p_bodyTasks := Undefined;
     p_skinTasks := Undefined;
     p_skinSessions := Undefined;
     p_mindSubjects := Undefined;
     p_reminderSettings := Undefined;
     p_mindReminderTimes := Undefined;
     p_mindReminderEnabled := Undefined;
     p_mindLastReminderDay := Undefined;
     p_weightInput := Value w;
     p_muscleProgress := Undefined |}.


(* ------------------------------------------------------------------ *)
(** ** CORS: the allow-list and the decision on an origin

    [setCors] of [src/api/state.js] and the [origin] callback of
    [corsOptions] in [src/server.js] read a comma-separated allow-list from
    the environment ([CORS_ORIGINS], respectively [CORS_ORIGIN]) in the same
    way. [String.prototype.trim] is the platform's and is a parameter. *)
(* ------------------------------------------------------------------ *)

(** [s.split(sep)] for a one-character separator: the pieces between the
    separators, one more than there are separators. *)
Fixpoint splitOn (sep : Ascii.ascii) (s : string) : list string :=
  match s with
  | EmptyString => [""]
  | String c rest =>
      if Ascii.eqb c sep then "" :: splitOn sep rest
      else match splitOn sep rest with
           | piece :: pieces => String c piece :: pieces
           | [] => [String c ""]
           end
  end.

(** The separator [","]. *)
Definition comma : Ascii.ascii := Ascii.Ascii false false true true false true false false.

(** Response headers, by name; [res.setHeader(name, value)] is an insert. *)
Abbreviation Headers := (gmap string string).

(** The verdict the [origin] callback hands to [cb]. *)
Inductive CorsVerdict : Type :=
  | CorsAllowed                  (* cb(null, true) *)
  | CorsRefused (msg : string).  (* cb(new Error(msg)) *)

Section Cors.

Variable trim : string → string.

(** [(env || "").split(",").map((s) => s.trim()).filter(Boolean)] *)
Definition parseOrigins (env : option string) : list string :=
  filter (λ s, s ≠ "") (trim <$> splitOn comma (default "" env)).

(** [setCors(req, res)] of src/api/state.js: [env] is
    [process.env.CORS_ORIGINS], [origin] is [req.headers.origin]. *)
Definition setCors (env origin : option string) (res : Headers) : Headers :=
  let allowed := parseOrigins env in
  let res :=
    match origin with
    | None => <["Access-Control-Allow-Origin" := "*"]> res
    | Some o =>
        if bool_decide (o = "") then <["Access-Control-Allow-Origin" := "*"]> res
        else if bool_decide (allowed = []) then <["Access-Control-Allow-Origin" := o]> res
        else if bool_decide (o ∈ allowed) then <["Access-Control-Allow-Origin" := o]> res
        else res
    end in
  let res := <["Vary" := "Origin"]> res in
  let res := <["Access-Control-Allow-Methods" := "GET,PUT,OPTIONS"]> res in
  <["Access-Control-Allow-Headers" := "Content-Type, Authorization"]> res.

(** [corsOptions.origin] of src/server.js, with [allowedOrigins] the list
    parsed from [process.env.CORS_ORIGIN] when the module loads. *)
Definition corsOrigin (env origin : option string) : CorsVerdict :=
  let allowedOrigins := parseOrigins env in
  match origin with
  | None => CorsAllowed
  | Some o =>
      if bool_decide (o = "") then CorsAllowed
      else if bool_decide (allowedOrigins = []) then CorsAllowed
      else if bool_decide (o ∈ allowedOrigins) then CorsAllowed
      else CorsRefused ("Not allowed by CORS: " +:+ o)
  end.

End Cors.

(** A trim for strings whose only blanks are ASCII ones (space, tab, line
    feed, vertical tab, form feed, carriage return). *)
Definition isBlank (c : Ascii.ascii) : bool :=
  let n := Ascii.nat_of_ascii c in
  bool_decide (n = 32%nat) || (bool_decide (9 ≤ n)%nat && bool_decide (n ≤ 13)%nat).

Fixpoint trimStart (s : string) : string :=
  match s with
  | String c rest => if isBlank c then trimStart rest else s
  | EmptyString => ""
  end.

Fixpoint trimEnd (s : string) : string :=
  match s with
  | String c rest =>
      match trimEnd rest with
      | EmptyString => if isBlank c then "" else String c ""
      | kept => String c kept
      end
  | EmptyString => ""
  end.

Definition trimAscii (s : string) : string := trimEnd (trimStart s).

(* ------------------------------------------------------------------ *)
(** ** The cached database connection

    [connectMongo] of [src/api/state.js] and [connectDb] of
    [src/server.js] keep [{ conn, promise }] in a global. Calls are taken
    one after the other (each is awaited before the next starts), so a
    promise is held by what it settles to. [uri] is
    [process.env.MONGODB_URI] at the call and [dial u] is what
    [mongoose.connect(u)] settles to if it is called then. *)
(* ------------------------------------------------------------------ *)

Module Mongo.

Section Connection.

Context {Conn Err : Type}.

(** What a call throws. *)
Inductive ConnectError : Type :=
  | MissingUri            (* new Error("Missing MONGODB_URI") *)
  | Rejected (e : Err).   (* the rejection of mongoose.connect *)

Record Cached : Type := mkCached {
  conn : option Conn;
  promise : option (Conn + Err);
}.

(** [{ conn: null, promise: null }] *)
Definition emptyCache : Cached := {| conn := None; promise := None |}.

(** What one call leaves and gives: the cache, the returned connection or
    the error thrown, and the URI dialled if [mongoose.connect] was called. *)
Record Call : Type := mkCall {
  cacheAfter : Cached;
  returned : Conn + ConnectError;
  dialled : option string;
}.

(** [cached.conn = await cached.promise; return cached.conn;] *)
Definition awaitPromise (c : Cached) (p : Conn + Err) (d : option string) : Call :=
  match p with
  | inl k => {| cacheAfter := {| conn := Some k; promise := promise c |};
                returned := inl k;
                dialled := d |}
  | inr e => {| cacheAfter := c; returned := inr (Rejected e); dialled := d |}
  end.

(** [!uri]: unset or empty. *)
Definition uriOf (uri : option string) : option string :=
  match uri with
  | Some u => if bool_decide (u = "") then None else Some u
  | None => None
  end.

(** [connectMongo()] of src/api/state.js *)
Definition connectMongo (uri : option string) (dial : string → Conn + Err) (c : Cached) : Call :=
  match conn c with
  | Some k => {| cacheAfter := c; returned := inl k; dialled := None |}
  | None =>
      match promise c with
      | Some p => awaitPromise c p None
      | None =>
          match uriOf uri with
          | None => {| cacheAfter := c; returned := inr MissingUri; dialled := None |}
          | Some u =>
              awaitPromise {| conn := conn c; promise := Some (dial u) |} (dial u) (Some u)
          end
      end
  end.

(** [connectDb()] of src/server.js: the URI is checked first. *)
Definition connectDb (uri : option string) (dial : string → Conn + Err) (c : Cached) : Call :=
  match uriOf uri with
  | None => {| cacheAfter := c; returned := inr MissingUri; dialled := None |}
  | Some u =>
      match conn c with
      | Some k => {| cacheAfter := c; returned := inl k; dialled := None |}
      | None =>
          match promise c with
          | Some p => awaitPromise c p None
          | None =>
              awaitPromise {| conn := conn c; promise := Some (dial u) |} (dial u) (Some u)
          end
      end
  end.

(** A run of calls, each with the environment it meets. *)
Fixpoint runCalls (connect : option string → (string → Conn + Err) → Cached → Call)
    (calls : list (option string * (string → Conn + Err))) (c : Cached) : list Call :=
  match calls with
  | [] => []
  | (uri, dial) :: rest =>
      let r := connect uri dial c in
      r :: runCalls connect rest (cacheAfter r)
  end.

(** How many calls of a run dialled. *)
Definition dials (run : list Call) : nat :=
  length (filter (λ r, is_Some (dialled r)) run).

End Connection.

Arguments ConnectError : clear implicits.
Arguments Cached : clear implicits.
Arguments Call : clear implicits.

End Mongo.

(* ------------------------------------------------------------------ *)
(** ** The handlers with [doc.save()] and the connection as they are

    [Api.handleGet], [Api.handlePut], [Server.getState] and
    [Server.putState] above take the connection for granted and take
    [doc.save()] to store the document as it is. The definitions below
    drop both idealisations.

    [doc.save()] is Mongoose's and is a parameter, seen from the
    collection: [save found doc], where [found] is what the collection
    holds for the user, is [None] when the save rejects (a validation or
    cast error, a failed write) and otherwise the record [findOne] returns
    afterwards. That record need not be [doc]: Mongoose leaves empty
    objects out of what it writes, and a path left out reads back as its
    schema default. [AppState.create(...)] is a save of a new document.

    Stored records are records of the data model; a [findOne] that fails
    on a live connection is not modelled. *)
(* ------------------------------------------------------------------ *)

Module ApiServe.

(** What the handler answers once the connection is there. *)
Inductive Answer : Type :=
  | NoContent204                    (* res.status(204).end() *)
  | Document200 (doc : Api.AppState) (* res.status(200).json(doc.toObject()) *)
  | Ok200                           (* res.status(200).json({ ok: true }) *)
  | MethodNotAllowed405
  | SaveRejected500.                (* the catch branch, after a rejected save *)

Abbreviation Save := (option Api.AppState → Api.AppState → option Api.AppState).

(** The GET branch of [handler]. *)
Definition getBranch (save : Save) (createdKey todayIST uid : string) (db : Api.Db)
  : Api.Db * Answer :=
  match db !! uid with
  | Some found =>
      let doc := Api.applyISTDailyReset todayIST found in
      match save (Some found) doc with
      | Some stored => (<[uid := stored]> db, Document200 doc)
      | None => (db, SaveRejected500)
      end
  | None =>
      let created := Api.createAppState uid createdKey in
      match save None created with
      | None => (db, SaveRejected500)
      | Some stored0 =>
          let doc := Api.applyISTDailyReset todayIST created in
          match save (Some stored0) doc with
          | Some stored => (<[uid := stored]> (<[uid := stored0]> db), Document200 doc)
          | None => (<[uid := stored0]> db, SaveRejected500)
          end
      end
  end.

(** The PUT branch of [handler]. *)
Definition putBranch (save : Save) (todayIST uid : string) (body : option Payload)
    (db : Api.Db) : Api.Db * Answer :=
  let payload := default emptyPayload body in
  let doc := default (Api.newAppState uid) (db !! uid) in
  let doc := Api.applyISTDailyReset todayIST doc in
  let doc := Api.overlay payload doc in
  match save (db !! uid) doc with
  | Some stored => (<[uid := stored]> db, Ok200)
  | None => (db, SaveRejected500)
  end.

(** The body of the [try] block after [await connectMongo()]. *)
Definition route (save : Save) (createdKey todayIST : string) (req : Request) (db : Api.Db)
  : Api.Db * Answer :=
  match method req with
  | GET => getBranch save createdKey todayIST (userIdOf (queryUserId req)) db
  | PUT => putBranch save todayIST (userIdOf (queryUserId req)) (body req) db
  | OPTIONS | OtherMethod => (db, MethodNotAllowed405)
  end.

Section Serve.

Context {Conn Err : Type}.
Variable trim : string → string.

(** What the handler works on: the connection cache and the collection. *)
Record World : Type := mkWorld {
  cached : Mongo.Cached Conn Err;
  store : Api.Db;
}.

Inductive Outcome : Type :=
  | Answered (a : Answer)
  | ConnectFailed500 (e : Mongo.ConnectError Err).  (* the catch branch, after connectMongo threw *)

Record Served : Type := mkServed {
  world : World;
  headers : Headers;
  outcome : Outcome;
  dialledUri : option string;
}.

(** The environment and the clock a request meets. *)
Record Env : Type := mkEnv {
  corsOrigins : option string;            (* process.env.CORS_ORIGINS *)
  mongodbUri : option string;             (* process.env.MONGODB_URI *)
  dial : string → Conn + Err;             (* mongoose.connect *)
  persist : Save;                         (* doc.save() *)
  createdKey : string;                    (* getISTDayKey() for a created document *)
  todayIST : string;                      (* getISTDayKey() inside the reset *)
}.

(** [handler(req, res)] *)
Definition serve (env : Env) (origin : option string) (req : Request)
    (res : Headers) (w : World) : Served :=
  let res := setCors trim (corsOrigins env) origin res in
  match method req with
  | OPTIONS =>
      {| world := w; headers := res; outcome := Answered NoContent204;
         dialledUri := None |}
  | _ =>
      let call := Mongo.connectMongo (mongodbUri env) (dial env) (cached w) in
      match Mongo.returned call with
      | inl _ =>
          let '(db, a) := route (persist env) (createdKey env) (todayIST env) req (store w) in
          {| world := {| cached := Mongo.cacheAfter call; store := db |};
             headers := res; outcome := Answered a;
             dialledUri := Mongo.dialled call |}
      | inr e =>
          {| world := {| cached := Mongo.cacheAfter call; store := store w |};
             headers := res; outcome := ConnectFailed500 e;
             dialledUri := Mongo.dialled call |}
      end
  end.

(** One request as it arrives: the environment it meets, its [Origin]
    header, the request and the headers the response starts with. *)
Record Arrival : Type := mkArrival {
  arrivalEnv : Env;
  arrivalOrigin : option string;
  arrivalRequest : Request;
  arrivalHeaders : Headers;
}.

(** Requests served one after the other by one instance. *)
Fixpoint serveAll (arrivals : list Arrival) (w : World) : list Served :=
  match arrivals with
  | [] => []
  | a :: rest =>
      let s := serve (arrivalEnv a) (arrivalOrigin a) (arrivalRequest a) (arrivalHeaders a) w in
      s :: serveAll rest (world s)
  end.

End Serve.

Arguments Arrival : clear implicits.
Arguments World : clear implicits.
Arguments Outcome : clear implicits.
Arguments Served : clear implicits.
Arguments Env : clear implicits.

End ApiServe.

(* ------------------------------------------------------------------ *)
(** ** src/server.js: the two routes as they are

    The callbacks of [app.get("/api/state", ...)] and
    [app.put("/api/state", ...)]: [await connectDb()], the work on the
    collection and the [catch] branch. *)
(* ------------------------------------------------------------------ *)

Module ExpressServe.

(** What a route answers once the connection is there. *)
Inductive Answer : Type :=
  | Document200 (doc : Server.AppState)  (* res.json(doc) *)
  | Ok200                                (* res.json({ ok: true }) *)
  | SaveRejected500.                     (* the catch branch, after a rejected save *)

Abbreviation Save := (option Server.AppState → Server.AppState → option Server.AppState).

(** The [try] block of the GET route after [await connectDb()]. *)
Definition getBranch (save : Save) (createdKey todayIST : string) (q : option string)
    (db : Server.Db) : Server.Db * Answer :=
  let uid := userIdOf q in
  match db !! uid with
  | Some found =>
      let doc := Server.applyISTDailyReset todayIST found in
      match save (Some found) doc with
      | Some stored => (<[uid := stored]> db, Document200 doc)
      | None => (db, SaveRejected500)
      end
  | None =>
      let created := Server.createAppState uid createdKey in
      match save None created with
      | None => (db, SaveRejected500)
      | Some stored0 =>
          let doc := Server.applyISTDailyReset todayIST created in
          match save (Some stored0) doc with
          | Some stored => (<[uid := stored]> (<[uid := stored0]> db), Document200 doc)
          | None => (<[uid := stored0]> db, SaveRejected500)
          end
      end
  end.

(** The [try] block of the PUT route after [await connectDb()]. *)
Definition putBranch (save : Save) (todayIST : string) (q : option string)
    (body : option Payload) (db : Server.Db) : Server.Db * Answer :=
  let uid := userIdOf q in
  let payload := default emptyPayload body in
  let doc := default (Server.newAppState uid) (db !! uid) in
  let doc := Server.applyISTDailyReset todayIST doc in
  let doc := Server.overlay payload doc in
  match save (db !! uid) doc with
  | Some stored => (<[uid := stored]> db, Ok200)
  | None => (db, SaveRejected500)
  end.

Section Routes.

Context {Conn Err : Type}.

Inductive Outcome : Type :=
  | Answered (a : Answer)
  | ConnectFailed500 (e : Mongo.ConnectError Err).  (* the catch branch, after connectDb threw *)

Record Routed : Type := mkRouted {
  cacheAfter : Mongo.Cached Conn Err;
  storeAfter : Server.Db;
  outcome : Outcome;
  dialledUri : option string;
}.

(** A route around the work [work] on the collection. *)
Definition withConnection (uri : option string) (dial : string → Conn + Err)
    (work : Server.Db → Server.Db * Answer)
    (c : Mongo.Cached Conn Err) (db : Server.Db) : Routed :=
  let call := Mongo.connectDb uri dial c in
  match Mongo.returned call with
  | inl _ =>
      let '(db', a) := work db in
      {| cacheAfter := Mongo.cacheAfter call; storeAfter := db';
         outcome := Answered a; dialledUri := Mongo.dialled call |}
  | inr e =>
      {| cacheAfter := Mongo.cacheAfter call; storeAfter := db;
         outcome := ConnectFailed500 e; dialledUri := Mongo.dialled call |}
  end.

(** [app.get("/api/state", async (req, res) => { ... })] *)
Definition getRoute (uri : option string) (dial : string → Conn + Err) (save : Save)
    (createdKey todayIST : string) (q : option string)
    (c : Mongo.Cached Conn Err) (db : Server.Db) : Routed :=
  withConnection uri dial (getBranch save createdKey todayIST q) c db.

(** [app.put("/api/state", async (req, res) => { ... })] *)
Definition putRoute (uri : option string) (dial : string → Conn + Err) (save : Save)
    (todayIST : string) (q : option string) (body : option Payload)
    (c : Mongo.Cached Conn Err) (db : Server.Db) : Routed :=
  withConnection uri dial (putBranch save todayIST q body) c db.

End Routes.

Arguments Outcome : clear implicits.
Arguments Routed : clear implicits.

End ExpressServe.

(* ------------------------------------------------------------------ *)
(** ** Saves used as examples *)
(* ------------------------------------------------------------------ *)

(** A save that stores every document as it is. *)
Definition saveVerbatim {A : Type} : option A → A → option A := λ _ doc, Some doc.

(** A save that leaves an empty [reminderSettings] out, so that the path
    reads back as its schema default, and stores the rest as it is. *)
Definition saveWithoutEmptySettings : ApiServe.Save := λ _ doc,
  Some {| Api.userId := Api.userId doc;
          Api.plannerTasks := Api.plannerTasks doc;
          Api.bodyTasks := Api.bodyTasks doc;
          Api.skinTasks := Api.skinTasks doc;
          Api.skinSessions := Api.skinSessions doc;
          Api.mindSubjects := Api.mindSubjects doc;
          Api.reminderSettings :=
            if bool_decide (size (Api.reminderSettings doc) = 0%nat)
            then defaultReminderSettings else Api.reminderSettings doc;
          Api.mindReminderTimes := Api.mindReminderTimes doc;
          Api.mindReminderEnabled := Api.mindReminderEnabled doc;
          Api.mindLastReminderDay := Api.mindLastReminderDay doc;
          Api.weightInput := Api.weightInput doc;
          Api.muscleProgress := Api.muscleProgress doc;
          Api.istDayKey := Api.istDayKey doc |}.

(** A save that rejects everything. *)
Definition saveRejecting {A : Type} : option A → A → option A := λ _ _, None.

(** [{ reminderSettings: {} }] *)
Definition emptySettingsOnly : Payload :=
  {| p_plannerTasks := Undefined;
     p_bodyTasks := Undefined;
     p_skinTasks := Undefined;
     p_skinSessions := Undefined;
     p_mindSubjects := Undefined;
     p_reminderSettings := Value ∅;
     p_mindReminderTimes := Undefined;
     p_mindReminderEnabled := Undefined;
     p_mindLastReminderDay := Undefined;
     p_weightInput := Undefined;
     p_muscleProgress := Undefined |}.

(* ------------------------------------------------------------------ *)
(** ** Vocabulary of the save and of the day key's parts *)
(* ------------------------------------------------------------------ *)

(** A save never changes the day key of what it stores. *)
Definition apiSaveKeepsDayKey (save : ApiServe.Save) : Prop :=
  ∀ found doc stored, save found doc = Some stored → Api.istDayKey stored = Api.istDayKey doc.

Definition expressSaveKeepsDayKey (save : ExpressServe.Save) : Prop :=
  ∀ found doc stored,
    save found doc = Some stored → Server.istDayKey stored = Server.istDayKey doc.

(** Saving a record just read, unchanged, leaves it as it is. *)
Definition saveKeepsStored {A : Type} (save : option A → A → option A) : Prop :=
  ∀ found doc stored, save found doc = Some stored → save (Some stored) stored = Some stored.

(** [p] is the first part of type [ty] among [parts], the one
    [parts.find((p) => p.type === ty)] returns. *)
Definition firstOfType (ty : string) (parts : list Part) (p : Part) : Prop :=
  ∃ before after : list Part,
    parts = (before ++ p :: after)%list ∧ ptype p = ty ∧ Forall (λ q, ptype q ≠ ty) before.

(** [v] is the component of the key read from the parts of type [ty]:
    the value of the first such part when it is not empty, and [dflt] when
    that value is empty or there is no such part. *)
Definition componentOf (ty dflt : string) (parts : list Part) (v : string) : Prop :=
  (∀ p, firstOfType ty parts p → pvalue p ≠ "" → v = pvalue p) ∧
  (∀ p, firstOfType ty parts p → pvalue p = "" → v = dflt) ∧
  (Forall (λ q, ptype q ≠ ty) parts → v = dflt).

(* ------------------------------------------------------------------ *)
(** ** Vocabulary of the handler properties *)
(* ------------------------------------------------------------------ *)





(* ================================================================== *)
(** * Properties *)
(* ================================================================== *)

(** Case analysis on the entry point, then on the day-key test. *)
Ltac on_entry :=
  match goal with
  | e : EntryPoint |- _ => destruct e; simpl in *
  end.

Ltac on_day_test :=
  unfold Api.applyISTDailyReset, Server.applyISTDailyReset in *;
  case_bool_decide; simpl in *.

(** ** The reset *)

Lemma nonEmptyOr_nil {A : Type} (dflt : list A) : nonEmptyOr [] dflt = dflt.
Proof. reflexivity. Qed.

Lemma nonEmptyOr_cons {A : Type} (xs dflt : list A) :
  xs ≠ [] → nonEmptyOr xs dflt = xs.
Proof. by destruct xs. Qed.

Lemma nonEmptyOr_lookup {A : Type} (xs dflt : list A) (i : nat) (x : A) :
  xs !! i = Some x → nonEmptyOr xs dflt = xs.
Proof. by destruct xs. Qed.

Lemma reconcile_dayKey (e : EntryPoint) (D : string) (S : Doc e) :
  dayKey (reconcile e D S) = D.
Proof.
  on_entry; on_day_test; try done; by apply dec_stable.
Qed.

Lemma reconcile_same_day (e : EntryPoint) (D : string) (S : Doc e) :
  dayKey S = D → reconcile e D S = S.
Proof.
  intros Heq. on_entry; on_day_test; done.
Qed.

Lemma reconcile_other_day_body (e : EntryPoint) (D : string) (S : Doc e) :
  dayKey S ≠ D →
  bodyTasksOf (reconcile e D S) = resetTask <$> nonEmptyOr (bodyTasksOf S) defaultBodyTasks.
Proof.
  intros Hne. on_entry; on_day_test; done.
Qed.

Lemma reconcile_other_day_skin (e : EntryPoint) (D : string) (S : Doc e) :
  dayKey S ≠ D →
  skinTasksOf (reconcile e D S) = resetTask <$> nonEmptyOr (skinTasksOf S) defaultSkinTasks.
Proof.
  intros Hne. on_entry; on_day_test; done.
Qed.

Lemma reconcile_other_day_mind (e : EntryPoint) (D : string) (S : Doc e) :
  dayKey S ≠ D →
  mindSubjectsOf (reconcile e D S)
  = resetSubject <$> nonEmptyOr (mindSubjectsOf S) defaultMindSubjects.
Proof.
  intros Hne. on_entry; on_day_test; done.
Qed.

(** C1. Reconciliation is idempotent: for every state record and every
    day key, in either entry point, applying the reset twice with the same
    day key gives the same record as applying it once. *)
Theorem reconcile_idempotent (e : EntryPoint) (D : string) (S : Doc e) :
  reconcile e D (reconcile e D S) = reconcile e D S.
Proof.
  apply reconcile_same_day, reconcile_dayKey.
Qed.

(** C2. When the stored day key already equals today's, the reset returns
    the record itself: every field is the one it was. *)
Theorem reconcile_noop_on_same_day (e : EntryPoint) (D : string) (S : Doc e) :
  dayKey S = D → reconcile e D S = S.
Proof.
  apply reconcile_same_day.
Qed.

Lemma reconcile_noop_on_same_day_witness :
  dayKey (e := ApiState) emptiedJan2 = "2024-01-02" ∧
  reconcile ApiState "2024-01-02" emptiedJan2 = emptiedJan2.
Proof.
  split; [reflexivity | apply (reconcile_noop_on_same_day ApiState); reflexivity].
Defined.

(** C8. The reset never changes [skinSessions], whether or not the day
    key differs. *)
Theorem reconcile_keeps_skinSessions (e : EntryPoint) (D : string) (S : Doc e) :
  skinSessionsOf (reconcile e D S) = skinSessionsOf S.
Proof.
  on_entry; on_day_test; reflexivity.
Qed.

(** ** What the reset keeps *)

Lemma resetTask_kept (t : Obj) : itemKept t (resetTask t).
Proof.
  unfold itemKept, resetTask.
  split_and!; [by rewrite lookup_insert_ne ..|].
  intros k Hk. by rewrite lookup_insert_ne.
Qed.

Lemma resetTask_notCompleted (t : Obj) : notCompleted (resetTask t).
Proof. apply lookup_insert_eq. Qed.

Lemma itemKept_refl (t : Obj) : itemKept t t.
Proof. by unfold itemKept. Qed.

Lemma resetSubject_kept (s : Subject) : subjectKept s (resetSubject s).
Proof.
  unfold subjectKept, resetSubject, unitsOf; simpl.
  split_and!; try done.
  - by rewrite length_fmap.
  - intros j u Hu. exists (resetTask u). split.
    + by rewrite list_lookup_fmap, Hu.
    + apply resetTask_kept.
Qed.

Lemma subjectKept_refl (s : Subject) : subjectKept s s.
Proof.
  unfold subjectKept. split_and!; try done.
  intros j u Hu. exists u. split; [done | apply itemKept_refl].
Qed.

Lemma reset_tasks_lookup (xs dflt : list Obj) (i : nat) (t : Obj) :
  xs !! i = Some t →
  ∃ t', (resetTask <$> nonEmptyOr xs dflt) !! i = Some t' ∧ itemKept t t'.
Proof.
  intros Hi. rewrite (nonEmptyOr_lookup _ _ _ _ Hi), list_lookup_fmap, Hi.
  exists (resetTask t). split; [done | apply resetTask_kept].
Qed.

Lemma reset_subjects_lookup (xs dflt : list Subject) (i : nat) (s : Subject) :
  xs !! i = Some s →
  ∃ s', (resetSubject <$> nonEmptyOr xs dflt) !! i = Some s' ∧ subjectKept s s'.
Proof.
  intros Hi. rewrite (nonEmptyOr_lookup _ _ _ _ Hi), list_lookup_fmap, Hi.
  exists (resetSubject s). split; [done | apply resetSubject_kept].
Qed.

(** C3. For every state and day key, in either entry point, the reset
    keeps every item of [bodyTasks] and [skinTasks] and every unit of every
    subject of [mindSubjects] in its place with its [id], its [label] and
    every other property but [completed]; each subject keeps its [id],
    [label], [links] and number of units; a collection that had items
    keeps their number. *)
Theorem reconcile_preserves_identity (e : EntryPoint) (D : string) (S : Doc e) :
  (∀ (i : nat) (t : Obj), bodyTasksOf S !! i = Some t →
     ∃ t', bodyTasksOf (reconcile e D S) !! i = Some t' ∧ itemKept t t') ∧
  (∀ (i : nat) (t : Obj), skinTasksOf S !! i = Some t →
     ∃ t', skinTasksOf (reconcile e D S) !! i = Some t' ∧ itemKept t t') ∧
  (∀ (i : nat) (s : Subject), mindSubjectsOf S !! i = Some s →
     ∃ s', mindSubjectsOf (reconcile e D S) !! i = Some s' ∧ subjectKept s s') ∧
  (bodyTasksOf S ≠ [] → length (bodyTasksOf (reconcile e D S)) = length (bodyTasksOf S)) ∧
  (skinTasksOf S ≠ [] → length (skinTasksOf (reconcile e D S)) = length (skinTasksOf S)) ∧
  (mindSubjectsOf S ≠ [] →
     length (mindSubjectsOf (reconcile e D S)) = length (mindSubjectsOf S)).
Proof.
  destruct (decide (dayKey S = D)) as [Heq | Hne].
  - rewrite (reconcile_same_day e D S Heq).
    split_and!; try done; intros i x Hx; exists x; (split; [done |]).
    + apply itemKept_refl.
    + apply itemKept_refl.
    + apply subjectKept_refl.
  - rewrite (reconcile_other_day_body e D S Hne),
            (reconcile_other_day_skin e D S Hne),
            (reconcile_other_day_mind e D S Hne).
    split_and!; try (intros Hnil; by rewrite length_fmap, nonEmptyOr_cons);
      intros i x Hx.
    + by apply reset_tasks_lookup.
    + by apply reset_tasks_lookup.
    + by apply reset_subjects_lookup.
Qed.

Lemma reconcile_preserves_identity_witness :
  ∃ t', bodyTasksOf (reconcile ApiState "2024-01-02" aliceJan1) !! 0%nat = Some t' ∧
        itemKept (obj [("id", JNum 1); ("label", JStr "Push ups"); ("completed", JBool true)]) t'.
Proof.
  apply (proj1 (reconcile_preserves_identity ApiState "2024-01-02" aliceJan1) 0%nat).
  reflexivity.
Defined.

(** ** Seeding *)

Lemma default_body_fixed : resetTask <$> defaultBodyTasks = defaultBodyTasks.
Proof. vm_compute. reflexivity. Qed.

Lemma default_skin_fixed : resetTask <$> defaultSkinTasks = defaultSkinTasks.
Proof. vm_compute. reflexivity. Qed.

Lemma default_mind_fixed : resetSubject <$> defaultMindSubjects = defaultMindSubjects.
Proof. vm_compute. reflexivity. Qed.

Lemma reset_tasks_notCompleted (xs : list Obj) : Forall notCompleted (resetTask <$> xs).
Proof.
  apply Forall_fmap, Forall_true. intros t. apply resetTask_notCompleted.
Qed.

Lemma reset_subjects_notCompleted (xs : list Subject) :
  Forall (λ s, Forall notCompleted (unitsOf s)) (resetSubject <$> xs).
Proof.
  apply Forall_fmap, Forall_true. intros s. apply reset_tasks_notCompleted.
Qed.

(** C4. For every state whose day key differs from today's: if
    [bodyTasks] is empty, the reset leaves the default body-task template in
    it, every item with [completed] false; likewise [skinTasks] and
    [mindSubjects] with their templates. *)
Theorem reconcile_seeds_empty (e : EntryPoint) (today : string) (S : Doc e) :
  dayKey S ≠ today →
  (bodyTasksOf S = [] →
     bodyTasksOf (reconcile e today S) = defaultBodyTasks ∧
     Forall notCompleted (bodyTasksOf (reconcile e today S))) ∧
  (skinTasksOf S = [] →
     skinTasksOf (reconcile e today S) = defaultSkinTasks ∧
     Forall notCompleted (skinTasksOf (reconcile e today S))) ∧
  (mindSubjectsOf S = [] →
     mindSubjectsOf (reconcile e today S) = defaultMindSubjects ∧
     Forall (λ s, Forall notCompleted (unitsOf s)) (mindSubjectsOf (reconcile e today S))).
Proof.
  intros Hne.
  rewrite (reconcile_other_day_body e today S Hne),
          (reconcile_other_day_skin e today S Hne),
          (reconcile_other_day_mind e today S Hne).
  split_and!; intros ->; rewrite nonEmptyOr_nil.
  - split; [apply default_body_fixed | apply reset_tasks_notCompleted].
  - split; [apply default_skin_fixed | apply reset_tasks_notCompleted].
  - split; [apply default_mind_fixed | apply reset_subjects_notCompleted].
Qed.

Lemma reconcile_seeds_empty_witness :
  bodyTasksOf (reconcile ExpressServer "2024-01-02" (Server.newAppState "alice"))
  = defaultBodyTasks ∧
  Forall notCompleted
    (bodyTasksOf (reconcile ExpressServer "2024-01-02" (Server.newAppState "alice"))).
Proof.
  apply (proj1 (reconcile_seeds_empty ExpressServer "2024-01-02" (Server.newAppState "alice")
                  ltac:(discriminate))).
  reflexivity.
Defined.

(** C5, as stated, fails: a record stamped with today's key whose
    [bodyTasks] is empty comes back from the reset with [bodyTasks] still
    empty. *)
Lemma seeding_skipped_on_same_day :
  bodyTasksOf (e := ApiState) emptiedJan2 = [] ∧
  dayKey (e := ApiState) emptiedJan2 = "2024-01-02" ∧
  bodyTasksOf (reconcile ApiState "2024-01-02" emptiedJan2) = [] ∧
  bodyTasksOf (reconcile ApiState "2024-01-02" emptiedJan2) ≠ defaultBodyTasks.
Proof.
  split_and!; try reflexivity. discriminate.
Qed.

(** C5, amended. For every state whose day key differs from the reset's:
    an empty checklist collection comes back seeded from its default
    template, hence non-empty. When the day key equals the reset's, the
    collections come back as they were. *)
Theorem reconcile_seeds_when_day_differs (e : EntryPoint) (D : string) (S : Doc e) :
  (dayKey S ≠ D →
     (bodyTasksOf S = [] →
        bodyTasksOf (reconcile e D S) = defaultBodyTasks ∧ bodyTasksOf (reconcile e D S) ≠ []) ∧
     (skinTasksOf S = [] →
        skinTasksOf (reconcile e D S) = defaultSkinTasks ∧ skinTasksOf (reconcile e D S) ≠ []) ∧
     (mindSubjectsOf S = [] →
        mindSubjectsOf (reconcile e D S) = defaultMindSubjects ∧
        mindSubjectsOf (reconcile e D S) ≠ [])) ∧
  (dayKey S = D →
     bodyTasksOf (reconcile e D S) = bodyTasksOf S ∧
     skinTasksOf (reconcile e D S) = skinTasksOf S ∧
     mindSubjectsOf (reconcile e D S) = mindSubjectsOf S).
Proof.
  split.
  - intros Hne.
    rewrite (reconcile_other_day_body e D S Hne),
            (reconcile_other_day_skin e D S Hne),
            (reconcile_other_day_mind e D S Hne).
    split_and!; intros ->; rewrite nonEmptyOr_nil.
    + by rewrite default_body_fixed.
    + by rewrite default_skin_fixed.
    + by rewrite default_mind_fixed.
  - intros Heq. by rewrite (reconcile_same_day e D S Heq).
Qed.

Lemma reconcile_seeds_when_day_differs_witness :
  mindSubjectsOf (reconcile ApiState "2024-01-02" (Api.newAppState "alice"))
  = defaultMindSubjects ∧
  mindSubjectsOf (reconcile ApiState "2024-01-02" (Api.newAppState "alice")) ≠ [].
Proof.
  apply (proj1 (reconcile_seeds_when_day_differs ApiState "2024-01-02" (Api.newAppState "alice"))
           ltac:(discriminate)).
  reflexivity.
Defined.

(** ** The watermark *)

(** C6, as stated, fails: the reset of a record stamped 2024-01-02 with
    the day key 2024-01-01 stamps it 2024-01-01, an earlier key. *)
Lemma dayKey_regresses :
  dayKey (e := ApiState) emptiedJan2 = "2024-01-02" ∧
  dayKey (reconcile ApiState "2024-01-01" emptiedJan2) = "2024-01-01" ∧
  ¬ dayKeyLe (dayKey (e := ApiState) emptiedJan2)
             (dayKey (reconcile ApiState "2024-01-01" emptiedJan2)).
Proof.
  split_and!; try reflexivity. unfold dayKeyLe. vm_compute. discriminate.
Qed.

(** C6, amended. After the reset the stored day key is the day key the
    reset was applied with; it is therefore no earlier than the previous
    one whenever the reset's day key is no earlier than it. *)
Theorem reconcile_stamps_day (e : EntryPoint) (D : string) (S : Doc e) :
  dayKey (reconcile e D S) = D ∧
  (dayKeyLe (dayKey S) D → dayKeyLe (dayKey S) (dayKey (reconcile e D S))).
Proof.
  rewrite reconcile_dayKey. done.
Qed.

Lemma reconcile_stamps_day_witness :
  dayKeyLe (dayKey (e := ApiState) aliceJan1)
           (dayKey (reconcile ApiState "2024-01-02" aliceJan1)).
Proof.
  apply (proj2 (reconcile_stamps_day ApiState "2024-01-02" aliceJan1)).
  reflexivity.
Defined.

(** ** The PUT overlay *)

Lemma overlaid_nullish {A : Type} (p : JsOpt A) (d : A) : overlaid p d (p ?? d).
Proof. by destruct p. Qed.



Lemma api_overlay_fields (rel : ∀ A : Type, JsOpt A → A → A → Prop)
    (payload : Payload) (rec : Api.AppState) :
  (∀ (A : Type) (p : JsOpt A) (d : A), rel A p d (p ?? d)) →
  apiFields rel payload rec (Api.overlay payload rec).
Proof.
  intros Hrel. unfold apiFields, Api.overlay; simpl. split_and!; apply Hrel.
Qed.

Lemma express_overlay_fields (rel : ∀ A : Type, JsOpt A → A → A → Prop)
    (payload : Payload) (rec : Server.AppState) :
  (∀ (A : Type) (p : JsOpt A) (d : A), rel A p d (p ?? d)) →
  expressFields rel payload rec (Server.overlay payload rec).
Proof.
  intros Hrel. unfold expressFields, Server.overlay; simpl. split_and!; apply Hrel.
Qed.

Lemma express_overlay_ignores (p p' : Payload) (rec : Server.AppState) :
  sameExpressKeys p p' → Server.overlay p rec = Server.overlay p' rec.
Proof.
  unfold sameExpressKeys, Server.overlay.
  intros (-> & -> & -> & -> & -> & -> & -> & ->). reflexivity.
Qed.



(** C7, as stated, fails on the Express route: a PUT that provides
    [weightInput] persists the same record as a PUT with an empty body,
    whatever the value provided, and whatever the connection and the save
    do. *)
Lemma express_put_drops_weightInput :
  p_weightInput (weightOnly "72") = Value "72" ∧
  Server.putState "2024-01-02" (Some "alice") (Some (weightOnly "72")) ∅
  = Server.putState "2024-01-02" (Some "alice") (Some emptyPayload) ∅ ∧
  Server.putState "2024-01-02" (Some "alice") (Some (weightOnly "72")) ∅
  = Server.putState "2024-01-02" (Some "alice") (Some (weightOnly "80")) ∅ ∧
  (∀ (Conn Err : Type) (uri : option string) (dial : string → Conn + Err)
     (save : ExpressServe.Save) (c : Mongo.Cached Conn Err) (db : Server.Db),
     ExpressServe.putRoute uri dial save "2024-01-02" (Some "alice")
       (Some (weightOnly "72")) c db
     = ExpressServe.putRoute uri dial save "2024-01-02" (Some "alice")
         (Some emptyPayload) c db).
Proof.
  split_and!; reflexivity.
Qed.

Lemma express_putBranch_ignores (save : ExpressServe.Save) (today : string)
    (q : option string) (p p' : Payload) (db : Server.Db) :
  sameExpressKeys p p' →
  ExpressServe.putBranch save today q (Some p) db
  = ExpressServe.putBranch save today q (Some p') db.
Proof.
  intros Hsame. unfold ExpressServe.putBranch; simpl.
  by rewrite (express_overlay_ignores p p').
Qed.

(** C7, amended. For every stored record of the data model and every
    payload whose values fit the schema, the PUT of either entry point,
    once the connection is there, applies the reset to the stored record
    (a new record when there is none), overlays the fields the payload
    carries with a non-null value, leaving the others at their reconciled
    value, and hands the result to [doc.save()]: when the save accepts it
    the answer is 200 and the collection holds what the save made of that
    document; when the save rejects it, or the connection failed, the
    answer is 500 and the collection is as it was, the reset not stored
    either. The serverless handler overlays eleven fields, [weightInput],
    [muscleProgress] and [mindLastReminderDay] among them; the Express
    route overlays the eight fields of its schema and does not read the
    other three keys. *)
Theorem put_reconciles_then_overlays (today : string) (q : option string) (body : option Payload) :
  let uid := userIdOf q in
  let payload := default emptyPayload body in
  (∀ (save : ApiServe.Save) (db : Api.Db),
     let rec := Api.applyISTDailyReset today (apiStored uid db) in
     ∃ doc : Api.AppState,
       apiFields (@overlaid) payload rec doc ∧
       Api.userId doc = Api.userId rec ∧
       Api.istDayKey doc = Api.istDayKey rec ∧
       ApiServe.putBranch save today uid body db
       = match save (db !! uid) doc with
         | Some stored => (<[uid := stored]> db, ApiServe.Ok200)
         | None => (db, ApiServe.SaveRejected500)
         end) ∧
  (∀ (Conn Err : Type) (trim : string → string) (env : ApiServe.Env Conn Err)
     (origin : option string) (res : Headers) (w : ApiServe.World Conn Err),
     ApiServe.todayIST env = today →
     let s := ApiServe.serve trim env origin (mkRequest PUT q body) res w in
     match Mongo.returned (Mongo.connectMongo (ApiServe.mongodbUri env) (ApiServe.dial env)
                             (ApiServe.cached w)) with
     | inl _ =>
         ApiServe.store (ApiServe.world s)
         = (ApiServe.putBranch (ApiServe.persist env) today uid body (ApiServe.store w)).1 ∧
         ApiServe.outcome s
         = ApiServe.Answered
             (ApiServe.putBranch (ApiServe.persist env) today uid body (ApiServe.store w)).2
     | inr e =>
         ApiServe.store (ApiServe.world s) = ApiServe.store w ∧
         ApiServe.outcome s = ApiServe.ConnectFailed500 e
     end) ∧
  (∀ (Conn Err : Type) (uri : option string) (dial : string → Conn + Err)
     (save : ExpressServe.Save) (c : Mongo.Cached Conn Err) (db : Server.Db),
     let rec := Server.applyISTDailyReset today (expressStored uid db) in
     let r := ExpressServe.putRoute uri dial save today q body c db in
     ∃ doc : Server.AppState,
       expressFields (@overlaid) payload rec doc ∧
       Server.userId doc = Server.userId rec ∧
       Server.istDayKey doc = Server.istDayKey rec ∧
       match Mongo.returned (Mongo.connectDb uri dial c) with
       | inl _ =>
           match save (db !! uid) doc with
           | Some stored =>
               ExpressServe.storeAfter r = <[uid := stored]> db ∧
               ExpressServe.outcome r = ExpressServe.Answered ExpressServe.Ok200
           | None =>
               ExpressServe.storeAfter r = db ∧
               ExpressServe.outcome r = ExpressServe.Answered ExpressServe.SaveRejected500
           end
       | inr e =>
           ExpressServe.storeAfter r = db ∧
           ExpressServe.outcome r = ExpressServe.ConnectFailed500 e
       end ∧
       ∀ payload' : Payload, sameExpressKeys payload payload' →
         ExpressServe.putRoute uri dial save today q (Some payload') c db
         = ExpressServe.putRoute uri dial save today q (Some payload) c db).
Proof.
  intros uid payload. split_and!.
  - intros save db rec.
    exists (Api.overlay payload rec). split_and!; try reflexivity.
    apply api_overlay_fields. intros A p d. apply overlaid_nullish.
  - intros Conn Err trim env origin res w <-; simpl.
    unfold ApiServe.serve; simpl.
    destruct (Mongo.returned (Mongo.connectMongo _ _ _)) as [k | e]; simpl; [| done].
    unfold ApiServe.route; simpl.
    by destruct (ApiServe.putBranch _ _ _ _ _).
  - intros Conn Err uri dial save c db rec r.
    exists (Server.overlay payload rec). split_and!; try reflexivity.
    + apply express_overlay_fields. intros A p d. apply overlaid_nullish.
    + subst r. unfold ExpressServe.putRoute, ExpressServe.withConnection.
      destruct (Mongo.returned (Mongo.connectDb uri dial c)) as [k | e]; simpl; [| done].
      unfold ExpressServe.putBranch; fold uid; fold payload.
      unfold expressStored in rec. fold rec.
      by destruct (save (db !! uid) (Server.overlay payload rec)).
    + intros payload' Hsame.
      unfold ExpressServe.putRoute, ExpressServe.withConnection.
      by rewrite (express_putBranch_ignores save today q payload payload' db Hsame).
Qed.



(** ** Scenarios of the specification, run on the model *)

(** A first GET for a user without a record answers the ten default body
    tasks, none completed, no skin session, and today's day key. *)
Example first_get_seeds_defaults :
  ∃ doc, Api.handler "2024-01-02" "2024-01-02" (mkRequest GET (Some "alice") None) ∅
         = ({[ "alice" := doc ]}, Api.Doc200 doc) ∧
         Api.bodyTasks doc = defaultBodyTasks ∧
         length (Api.bodyTasks doc) = 10%nat ∧
         Forall notCompleted (Api.bodyTasks doc) ∧
         Api.skinSessions doc = 0 ∧
         Api.istDayKey doc = "2024-01-02".
Proof.
  eexists. split; [reflexivity |].
  split_and!; try reflexivity.
  change (Forall notCompleted defaultBodyTasks).
  rewrite <- default_body_fixed. apply reset_tasks_notCompleted.
Qed.

(** A GET on 2024-01-02 of a record stamped 2024-01-01 answers the first
    body task unticked and the new day key. *)
Example next_day_get_resets :
  ∃ doc t, (Api.handler "2024-01-02" "2024-01-02" (mkRequest GET (Some "alice") None)
              {[ "alice" := aliceJan1 ]}).2 = Api.Doc200 doc ∧
           Api.bodyTasks aliceJan1 !! 0%nat
           = Some (obj [("id", JNum 1); ("label", JStr "Push ups"); ("completed", JBool true)]) ∧
           Api.bodyTasks doc !! 0%nat = Some t ∧
           t !! "completed" = Some (JBool false) ∧
           t !! "label" = Some (JStr "Push ups") ∧
           Api.istDayKey doc = "2024-01-02".
Proof.
  do 2 eexists. split_and!; reflexivity.
Qed.

(** A PUT of [{ skinSessions: 5 }] for a new user stores the reset
    checklists and five skin sessions. *)
Example put_skinSessions_only :
  ∃ doc, (Api.handlePut "2024-01-02" "alice" (Some skinSessions5) ∅).1 !! "alice" = Some doc ∧
         Api.skinSessions doc = 5 ∧
         Api.bodyTasks doc = defaultBodyTasks ∧
         Api.skinTasks doc = defaultSkinTasks ∧
         Api.mindSubjects doc = defaultMindSubjects ∧
         Api.istDayKey doc = "2024-01-02".
Proof.
  eexists. split; [apply lookup_insert_eq |]. split_and!; reflexivity.
Qed.

(** ** The day key *)

Lemma partValueOr_found (ty dflt : string) (parts : list Part) (p : Part) :
  List.find (λ p, bool_decide (ptype p = ty)) parts = Some p →
  pvalue p ≠ "" →
  partValueOr ty dflt parts = pvalue p.
Proof.
  intros Hfind Hval. unfold partValueOr. rewrite Hfind.
  by rewrite bool_decide_eq_false_2.
Qed.

(** Whenever the formatter yields a non-empty year, month and day part,
    the key is these three joined by hyphens, year first. *)
Lemma getISTDayKey_assembles (parts : list Part) (y m d : Part) :
  List.find (λ p, bool_decide (ptype p = "year")) parts = Some y →
  List.find (λ p, bool_decide (ptype p = "month")) parts = Some m →
  List.find (λ p, bool_decide (ptype p = "day")) parts = Some d →
  pvalue y ≠ "" → pvalue m ≠ "" → pvalue d ≠ "" →
  getISTDayKey parts = pvalue y +:+ "-" +:+ pvalue m +:+ "-" +:+ pvalue d.
Proof.
  intros Hy Hm Hd Hy' Hm' Hd'. unfold getISTDayKey.
  by rewrite (partValueOr_found _ _ _ y), (partValueOr_found _ _ _ m),
             (partValueOr_found _ _ _ d).
Qed.

(** With the parts en-US formatting yields for 2 January 2024 the day key
    is assembled year first; with no parts at all the fallbacks are used. *)
Example getISTDayKey_en_US :
  getISTDayKey [ mkPart "month" "01"; mkPart "literal" "/"; mkPart "day" "02";
                 mkPart "literal" "/"; mkPart "year" "2024" ] = "2024-01-02" ∧
  getISTDayKey [] = "0000-00-00".
Proof.
  split; reflexivity.
Qed.

(* ================================================================== *)
(** * Further properties of the reset and of the day key *)
(* ================================================================== *)

Lemma resetTask_idem (t : Obj) : resetTask (resetTask t) = resetTask t.
Proof. apply insert_insert_eq. Qed.

Lemma reset_tasks_idem (xs : list Obj) :
  resetTask <$> (resetTask <$> xs) = resetTask <$> xs.
Proof.
  rewrite <- list_fmap_compose. apply list_fmap_ext. intros i t _. apply resetTask_idem.
Qed.

Lemma resetSubject_idem (s : Subject) : resetSubject (resetSubject s) = resetSubject s.
Proof.
  unfold resetSubject; simpl. by rewrite reset_tasks_idem.
Qed.

Lemma reset_subjects_idem (xs : list Subject) :
  resetSubject <$> (resetSubject <$> xs) = resetSubject <$> xs.
Proof.
  rewrite <- list_fmap_compose. apply list_fmap_ext. intros i s _. apply resetSubject_idem.
Qed.

Lemma nonEmptyOr_nonempty {A : Type} (xs dflt : list A) :
  dflt ≠ [] → nonEmptyOr xs dflt ≠ [].
Proof. by destruct xs. Qed.

Lemma fmap_nonempty {A B : Type} (f : A → B) (xs : list A) : xs ≠ [] → f <$> xs ≠ [].
Proof. by destruct xs. Qed.

(** A list that went through the reset goes through a second one unchanged. *)
Lemma reset_again {A : Type} (f : A → A) (xs dflt : list A) :
  dflt ≠ [] →
  f <$> (f <$> nonEmptyOr xs dflt) = f <$> nonEmptyOr xs dflt →
  f <$> nonEmptyOr (f <$> nonEmptyOr xs dflt) dflt = f <$> nonEmptyOr xs dflt.
Proof.
  intros Hd Hidem.
  rewrite (nonEmptyOr_cons (f <$> nonEmptyOr xs dflt)); [done |].
  by apply fmap_nonempty, nonEmptyOr_nonempty.
Qed.

Lemma defaultBodyTasks_nonempty : defaultBodyTasks ≠ [].
Proof. discriminate. Qed.

Lemma defaultSkinTasks_nonempty : defaultSkinTasks ≠ [].
Proof. discriminate. Qed.

Lemma defaultMindSubjects_nonempty : defaultMindSubjects ≠ [].
Proof. discriminate. Qed.

Lemma reset_subjects_have_units (xs : list Subject) :
  Forall (λ s, is_Some (units s) ∧ Forall notCompleted (unitsOf s)) (resetSubject <$> xs).
Proof.
  apply Forall_fmap, Forall_true. intros s. split; [by eexists |].
  apply reset_tasks_notCompleted.
Qed.

(** X1. When the stored day key differs from the reset's, the reset leaves
    no flag set and no collection empty: every body task, every skin task
    and every unit of every subject has [completed] false, and every
    subject carries a [units] array, empty if it had none. *)
Theorem reconcile_clears_every_flag (e : EntryPoint) (D : string) (S : Doc e) :
  dayKey S ≠ D →
  bodyTasksOf (reconcile e D S) ≠ [] ∧
  Forall notCompleted (bodyTasksOf (reconcile e D S)) ∧
  skinTasksOf (reconcile e D S) ≠ [] ∧
  Forall notCompleted (skinTasksOf (reconcile e D S)) ∧
  mindSubjectsOf (reconcile e D S) ≠ [] ∧
  Forall (λ s, is_Some (units s) ∧ Forall notCompleted (unitsOf s))
         (mindSubjectsOf (reconcile e D S)).
Proof.
  intros Hne.
  rewrite (reconcile_other_day_body e D S Hne),
          (reconcile_other_day_skin e D S Hne),
          (reconcile_other_day_mind e D S Hne).
  split_and!.
  - apply fmap_nonempty, nonEmptyOr_nonempty, defaultBodyTasks_nonempty.
  - apply reset_tasks_notCompleted.
  - apply fmap_nonempty, nonEmptyOr_nonempty, defaultSkinTasks_nonempty.
  - apply reset_tasks_notCompleted.
  - apply fmap_nonempty, nonEmptyOr_nonempty, defaultMindSubjects_nonempty.
  - apply reset_subjects_have_units.
Qed.

Lemma reconcile_clears_every_flag_witness :
  Forall notCompleted (bodyTasksOf (reconcile ApiState "2024-01-02" aliceJan1)) ∧
  Forall (λ s, is_Some (units s) ∧ Forall notCompleted (unitsOf s))
         (mindSubjectsOf (reconcile ApiState "2024-01-02" aliceJan1)).
Proof.
  pose proof (reconcile_clears_every_flag ApiState "2024-01-02" aliceJan1 ltac:(discriminate))
    as (_ & Hbody & _ & _ & _ & Hmind).
  exact (conj Hbody Hmind).
Defined.

(** X2. Whatever the day keys, the reset leaves [userId], [plannerTasks],
    the reminder settings and maps and, in the serverless handler,
    [mindLastReminderDay], [weightInput] and [muscleProgress] as they were:
    it writes nothing but the three checklists and the day key. *)
Theorem reconcile_writes_only_checklists :
  (∀ (D : string) (S : Api.AppState),
     let S' := Api.applyISTDailyReset D S in
     Api.userId S' = Api.userId S ∧
     Api.plannerTasks S' = Api.plannerTasks S ∧
     Api.reminderSettings S' = Api.reminderSettings S ∧
     Api.mindReminderTimes S' = Api.mindReminderTimes S ∧
     Api.mindReminderEnabled S' = Api.mindReminderEnabled S ∧
     Api.mindLastReminderDay S' = Api.mindLastReminderDay S ∧
     Api.weightInput S' = Api.weightInput S ∧
     Api.muscleProgress S' = Api.muscleProgress S) ∧
  (∀ (D : string) (S : Server.AppState),
     let S' := Server.applyISTDailyReset D S in
     Server.userId S' = Server.userId S ∧
     Server.plannerTasks S' = Server.plannerTasks S ∧
     Server.reminderSettings S' = Server.reminderSettings S ∧
     Server.mindReminderTimes S' = Server.mindReminderTimes S ∧
     Server.mindReminderEnabled S' = Server.mindReminderEnabled S).
Proof.
  split; intros D S; on_day_test; by split_and!.
Qed.

Lemma api_reset_twice (D1 D2 : string) (S : Api.AppState) :
  Api.istDayKey S ≠ D1 → D1 ≠ D2 → Api.istDayKey S ≠ D2 →
  Api.applyISTDailyReset D2 (Api.applyISTDailyReset D1 S) = Api.applyISTDailyReset D2 S.
Proof.
  intros H1 H12 H2. unfold Api.applyISTDailyReset.
  rewrite (bool_decide_eq_true_2 _ H1), (bool_decide_eq_true_2 _ H2); simpl.
  rewrite (bool_decide_eq_true_2 _ H12); simpl.
  f_equal.
  - apply reset_again; [apply defaultBodyTasks_nonempty | apply reset_tasks_idem].
  - apply reset_again; [apply defaultSkinTasks_nonempty | apply reset_tasks_idem].
  - apply reset_again; [apply defaultMindSubjects_nonempty | apply reset_subjects_idem].
Qed.

Lemma express_reset_twice (D1 D2 : string) (S : Server.AppState) :
  Server.istDayKey S ≠ D1 → D1 ≠ D2 → Server.istDayKey S ≠ D2 →
  Server.applyISTDailyReset D2 (Server.applyISTDailyReset D1 S)
  = Server.applyISTDailyReset D2 S.
Proof.
  intros H1 H12 H2. unfold Server.applyISTDailyReset.
  rewrite (bool_decide_eq_true_2 _ H1), (bool_decide_eq_true_2 _ H2); simpl.
  rewrite (bool_decide_eq_true_2 _ H12); simpl.
  f_equal.
  - apply reset_again; [apply defaultBodyTasks_nonempty | apply reset_tasks_idem].
  - apply reset_again; [apply defaultSkinTasks_nonempty | apply reset_tasks_idem].
  - apply reset_again; [apply defaultMindSubjects_nonempty | apply reset_subjects_idem].
Qed.

Lemma reconcile_twice (e : EntryPoint) (D1 D2 : string) (S : Doc e) :
  dayKey S ≠ D2 → reconcile e D2 (reconcile e D1 S) = reconcile e D2 S.
Proof.
  intros H2.
  destruct (decide (dayKey S = D1)) as [Heq | H1].
  { by rewrite (reconcile_same_day e D1 S Heq). }
  destruct (decide (D1 = D2)) as [-> | H12].
  { apply reconcile_same_day, reconcile_dayKey. }
  destruct e; simpl in *.
  - by apply api_reset_twice.
  - by apply express_reset_twice.
Qed.

(** X3. Days may be skipped or served late: for a record not yet stamped
    with [D2], resetting it for any day [D1] and then for [D2] gives the
    record that resetting it for [D2] alone gives. *)
Theorem reconcile_absorbs_earlier_reset (e : EntryPoint) (D1 D2 : string) (S : Doc e) :
  dayKey S ≠ D2 → reconcile e D2 (reconcile e D1 S) = reconcile e D2 S.
Proof.
  apply reconcile_twice.
Qed.

Lemma reconcile_absorbs_earlier_reset_witness :
  reconcile ApiState "2024-01-03" (reconcile ApiState "2024-01-02" aliceJan1)
  = reconcile ApiState "2024-01-03" aliceJan1.
Proof.
  apply (reconcile_absorbs_earlier_reset ApiState "2024-01-02" "2024-01-03" aliceJan1).
  discriminate.
Defined.

Lemma partValueOr_nonempty (ty dflt : string) (parts : list Part) :
  dflt ≠ "" → partValueOr ty dflt parts ≠ "".
Proof.
  intros Hd. unfold partValueOr.
  destruct (List.find _ parts) as [p |]; [| done].
  by case_bool_decide.
Qed.

Lemma partValueOr_missing (ty dflt : string) (parts : list Part) :
  (∀ p, p ∈ parts → ptype p = ty → pvalue p = "") →
  partValueOr ty dflt parts = dflt.
Proof.
  intros Hparts. unfold partValueOr.
  destruct (List.find _ parts) as [p |] eqn:Hfind; [| done].
  apply List.find_some in Hfind as [Hin Hty].
  apply bool_decide_eq_true_1 in Hty.
  apply list_elem_of_In in Hin.
  by rewrite (Hparts p Hin Hty), bool_decide_eq_true_2.
Qed.

Lemma getISTDayKey_nonempty (parts : list Part) : getISTDayKey parts ≠ "".
Proof.
  unfold getISTDayKey.
  pose proof (partValueOr_nonempty "year" "0000" parts ltac:(discriminate)) as Hy.
  destruct (partValueOr "year" "0000" parts); [done | discriminate].
Qed.

Lemma find_firstOfType (ty : string) (parts : list Part) (p : Part) :
  firstOfType ty parts p →
  List.find (λ q, bool_decide (ptype q = ty)) parts = Some p.
Proof.
  intros (before & after & -> & Hty & Hbefore).
  induction before as [| q before IH]; simpl.
  - by rewrite bool_decide_eq_true_2.
  - apply Forall_cons in Hbefore as [Hq Hbefore].
    rewrite bool_decide_eq_false_2 by done. by apply IH.
Qed.

Lemma find_no_part (ty : string) (parts : list Part) :
  Forall (λ q, ptype q ≠ ty) parts →
  List.find (λ q, bool_decide (ptype q = ty)) parts = None.
Proof.
  induction 1 as [| q parts Hq _ IH]; simpl; [done |].
  by rewrite bool_decide_eq_false_2.
Qed.

Lemma partValueOr_component (ty dflt : string) (parts : list Part) :
  componentOf ty dflt parts (partValueOr ty dflt parts).
Proof.
  unfold componentOf, partValueOr. split_and!.
  - intros p Hp Hval. rewrite (find_firstOfType ty parts p Hp).
    by rewrite bool_decide_eq_false_2.
  - intros p Hp Hval. rewrite (find_firstOfType ty parts p Hp).
    by rewrite bool_decide_eq_true_2.
  - intros Hnone. by rewrite (find_no_part ty parts Hnone).
Qed.

(** X4. The day key is the year, the month and the day of the parts,
    joined by hyphens in that order: each component is the value of the
    first part of its type, and [0000], respectively [00], when that value
    is empty or no part has the type (later parts of the type are not
    looked at). No component is ever empty, so the key is never the empty
    string a new document starts with. *)
Theorem getISTDayKey_components (parts : list Part) :
  ∃ y m d : string,
    getISTDayKey parts = y +:+ "-" +:+ m +:+ "-" +:+ d ∧
    componentOf "year" "0000" parts y ∧
    componentOf "month" "00" parts m ∧
    componentOf "day" "00" parts d ∧
    y ≠ "" ∧ m ≠ "" ∧ d ≠ "" ∧
    getISTDayKey parts ≠ "".
Proof.
  exists (partValueOr "year" "0000" parts),
         (partValueOr "month" "00" parts),
         (partValueOr "day" "00" parts).
  split_and!; try (by apply partValueOr_nonempty); try (apply partValueOr_component).
  - reflexivity.
  - apply getISTDayKey_nonempty.
Qed.

(** The first part of a type decides, also when it is empty and a later
    one is not. *)
Example getISTDayKey_first_part_decides :
  getISTDayKey [ mkPart "year" ""; mkPart "year" "2024"; mkPart "month" "01";
                 mkPart "day" "02"; mkPart "day" "03" ] = "0000-01-02".
Proof. reflexivity. Qed.

(* ================================================================== *)
(** * Properties of the GET and PUT handlers *)
(* ================================================================== *)





Lemma api_reset_istDayKey (D : string) (S : Api.AppState) :
  Api.istDayKey (Api.applyISTDailyReset D S) = D.
Proof. apply (reconcile_dayKey ApiState). Qed.

Lemma express_reset_istDayKey (D : string) (S : Server.AppState) :
  Server.istDayKey (Server.applyISTDailyReset D S) = D.
Proof. apply (reconcile_dayKey ExpressServer). Qed.

Lemma api_reset_stamped (D : string) (S : Api.AppState) :
  Api.istDayKey S = D → Api.applyISTDailyReset D S = S.
Proof. apply (reconcile_same_day ApiState). Qed.

Lemma express_reset_stamped (D : string) (S : Server.AppState) :
  Server.istDayKey S = D → Server.applyISTDailyReset D S = S.
Proof. apply (reconcile_same_day ExpressServer). Qed.










Lemma api_overlay_istDayKey (p : Payload) (d : Api.AppState) :
  Api.istDayKey (Api.overlay p d) = Api.istDayKey d.
Proof. reflexivity. Qed.

Lemma express_overlay_istDayKey (p : Payload) (d : Server.AppState) :
  Server.istDayKey (Server.overlay p d) = Server.istDayKey d.
Proof. reflexivity. Qed.

(** X8. A GET of the same day after a PUT answered 200 resets nothing:
    provided the save keeps the day key and leaves a record it is handed
    back unchanged as it is, the GET answers the record the PUT left in
    the collection, the [completed] flags it holds included, and leaves
    the collection as the PUT left it. What the PUT left is what the save
    made of the overlaid document, not necessarily every value as sent. *)
Theorem get_after_put_same_day (today : string) (body : option Payload) :
  (∀ (save : ApiServe.Save) (created uid : string) (db db1 : Api.Db),
     apiSaveKeepsDayKey save → saveKeepsStored save →
     ApiServe.putBranch save today uid body db = (db1, ApiServe.Ok200) →
     ∃ stored : Api.AppState,
       db1 !! uid = Some stored ∧
       save (db !! uid)
         (Api.overlay (default emptyPayload body)
            (Api.applyISTDailyReset today (apiStored uid db))) = Some stored ∧
       ApiServe.getBranch save created today uid db1 = (db1, ApiServe.Document200 stored)) ∧
  (∀ (save : ExpressServe.Save) (created : string) (q : option string) (db db1 : Server.Db),
     expressSaveKeepsDayKey save → saveKeepsStored save →
     ExpressServe.putBranch save today q body db = (db1, ExpressServe.Ok200) →
     ∃ stored : Server.AppState,
       db1 !! userIdOf q = Some stored ∧
       save (db !! userIdOf q)
         (Server.overlay (default emptyPayload body)
            (Server.applyISTDailyReset today (expressStored (userIdOf q) db))) = Some stored ∧
       ExpressServe.getBranch save created today q db1
       = (db1, ExpressServe.Document200 stored)).
Proof.
  split.
  - intros save created uid db db1 Hkey Hidem. unfold ApiServe.putBranch, apiStored.
    destruct (save (db !! uid) _) as [stored |] eqn:Hsave; [| done].
    intros [= <-]. exists stored. split_and!; [apply lookup_insert_eq | done |].
    unfold ApiServe.getBranch. rewrite lookup_insert_eq.
    assert (Hday : Api.istDayKey stored = today).
    { rewrite (Hkey _ _ _ Hsave). by rewrite api_overlay_istDayKey, api_reset_istDayKey. }
    rewrite (api_reset_stamped today stored Hday), (Hidem _ _ _ Hsave).
    by rewrite insert_insert_eq.
  - intros save created q db db1 Hkey Hidem. unfold ExpressServe.putBranch, expressStored.
    destruct (save (db !! userIdOf q) _) as [stored |] eqn:Hsave; [| done].
    intros [= <-]. exists stored. split_and!; [apply lookup_insert_eq | done |].
    unfold ExpressServe.getBranch. rewrite lookup_insert_eq.
    assert (Hday : Server.istDayKey stored = today).
    { rewrite (Hkey _ _ _ Hsave).
      by rewrite express_overlay_istDayKey, express_reset_istDayKey. }
    rewrite (express_reset_stamped today stored Hday), (Hidem _ _ _ Hsave).
    by rewrite insert_insert_eq.
Qed.





Lemma api_reset_new (today uid : string) :
  today ≠ "" →
  Api.applyISTDailyReset today (Api.newAppState uid) = Api.createAppState uid today.
Proof.
  intros Hne. unfold Api.applyISTDailyReset.
  rewrite bool_decide_eq_true_2 by (simpl; congruence).
  unfold Api.createAppState. f_equal; reflexivity.
Qed.

Lemma express_reset_new (today uid : string) :
  today ≠ "" →
  Server.applyISTDailyReset today (Server.newAppState uid) = Server.createAppState uid today.
Proof.
  intros Hne. unfold Server.applyISTDailyReset.
  rewrite bool_decide_eq_true_2 by (simpl; congruence).
  unfold Server.createAppState. f_equal; reflexivity.
Qed.

(** X10. First contact is one rule: for a user without a record and a
    non-empty day key, a first GET hands the default document stamped with
    the day key to the save, once to create it and once after the reset,
    which changes nothing; a first PUT hands that same document, overlaid
    with its payload, to the save, the new document's empty day key making
    the reset seed every checklist. Each answers 500 when its save
    rejects; only the GET can then leave a record behind, the created one. *)
Theorem first_put_builds_on_first_get (today : string) (body : option Payload) :
  today ≠ "" →
  (∀ (save : ApiServe.Save) (uid : string) (db : Api.Db),
     db !! uid = None →
     ApiServe.getBranch save today today uid db
     = match save None (Api.createAppState uid today) with
       | None => (db, ApiServe.SaveRejected500)
       | Some created =>
           match save (Some created) (Api.createAppState uid today) with
           | Some stored =>
               (<[uid := stored]> db, ApiServe.Document200 (Api.createAppState uid today))
           | None => (<[uid := created]> db, ApiServe.SaveRejected500)
           end
       end ∧
     ApiServe.putBranch save today uid body db
     = match save None (Api.overlay (default emptyPayload body)
                          (Api.createAppState uid today)) with
       | Some stored => (<[uid := stored]> db, ApiServe.Ok200)
       | None => (db, ApiServe.SaveRejected500)
       end) ∧
  (∀ (save : ExpressServe.Save) (q : option string) (db : Server.Db),
     db !! userIdOf q = None →
     ExpressServe.getBranch save today today q db
     = match save None (Server.createAppState (userIdOf q) today) with
       | None => (db, ExpressServe.SaveRejected500)
       | Some created =>
           match save (Some created) (Server.createAppState (userIdOf q) today) with
           | Some stored =>
               (<[userIdOf q := stored]> db,
                ExpressServe.Document200 (Server.createAppState (userIdOf q) today))
           | None => (<[userIdOf q := created]> db, ExpressServe.SaveRejected500)
           end
       end ∧
     ExpressServe.putBranch save today q body db
     = match save None (Server.overlay (default emptyPayload body)
                          (Server.createAppState (userIdOf q) today)) with
       | Some stored => (<[userIdOf q := stored]> db, ExpressServe.Ok200)
       | None => (db, ExpressServe.SaveRejected500)
       end).
Proof.
  intros Hne. split.
  - intros save uid db Hnone. unfold ApiServe.getBranch, ApiServe.putBranch.
    rewrite Hnone; simpl. split.
    + rewrite (api_reset_stamped today (Api.createAppState uid today)) by done.
      destruct (save None _) as [created |]; [| done].
      destruct (save (Some created) _); [| done].
      by rewrite insert_insert_eq.
    + by rewrite api_reset_new.
  - intros save q db Hnone. unfold ExpressServe.getBranch, ExpressServe.putBranch.
    rewrite Hnone; simpl. split.
    + rewrite (express_reset_stamped today (Server.createAppState (userIdOf q) today))
        by done.
      destruct (save None _) as [created |]; [| done].
      destruct (save (Some created) _); [| done].
      by rewrite insert_insert_eq.
    + by rewrite express_reset_new.
Qed.

Lemma first_put_builds_on_first_get_witness :
  ApiServe.putBranch saveWithoutEmptySettings "2024-01-02" "alice" (Some emptySettingsOnly) ∅
  = match saveWithoutEmptySettings None
            (Api.overlay (default emptyPayload (Some emptySettingsOnly))
               (Api.createAppState "alice" "2024-01-02")) with
    | Some stored => (<["alice" := stored]> ∅, ApiServe.Ok200)
    | None => (∅, ApiServe.SaveRejected500)
    end.
Proof.
  apply (proj1 (first_put_builds_on_first_get "2024-01-02" (Some emptySettingsOnly)
                  ltac:(discriminate)) saveWithoutEmptySettings "alice" ∅).
  reflexivity.
Defined.

(** X11. A request answered 200 leaves the user's record stamped:
    provided the save keeps the day key, after a GET or a PUT answered 200
    the collection holds for the user a record with the day key of the
    request, and the document a GET answers carries that day key too. *)
Theorem requests_stamp_the_record (today : string) :
  (∀ (save : ApiServe.Save), apiSaveKeepsDayKey save →
     (∀ (created uid : string) (db db1 : Api.Db) (doc : Api.AppState),
        ApiServe.getBranch save created today uid db = (db1, ApiServe.Document200 doc) →
        Api.istDayKey doc = today ∧
        ∃ stored, db1 !! uid = Some stored ∧ Api.istDayKey stored = today) ∧
     (∀ (uid : string) (body : option Payload) (db db1 : Api.Db),
        ApiServe.putBranch save today uid body db = (db1, ApiServe.Ok200) →
        ∃ stored, db1 !! uid = Some stored ∧ Api.istDayKey stored = today)) ∧
  (∀ (save : ExpressServe.Save), expressSaveKeepsDayKey save →
     (∀ (created : string) (q : option string) (db db1 : Server.Db) (doc : Server.AppState),
        ExpressServe.getBranch save created today q db = (db1, ExpressServe.Document200 doc) →
        Server.istDayKey doc = today ∧
        ∃ stored, db1 !! userIdOf q = Some stored ∧ Server.istDayKey stored = today) ∧
     (∀ (q : option string) (body : option Payload) (db db1 : Server.Db),
        ExpressServe.putBranch save today q body db = (db1, ExpressServe.Ok200) →
        ∃ stored, db1 !! userIdOf q = Some stored ∧ Server.istDayKey stored = today)).
Proof.
  split; intros save Hkey; split.
  - intros created uid db db1 doc. unfold ApiServe.getBranch.
    destruct (db !! uid) as [found |].
    + destruct (save (Some found) _) as [stored |] eqn:Hsave; [| done].
      intros [= <- <-]. split; [apply api_reset_istDayKey |].
      exists stored. split; [apply lookup_insert_eq |].
      rewrite (Hkey _ _ _ Hsave). apply api_reset_istDayKey.
    + destruct (save None _) as [created0 |]; [| done].
      destruct (save (Some created0) _) as [stored |] eqn:Hsave; [| done].
      intros [= <- <-]. split; [apply api_reset_istDayKey |].
      exists stored. split; [apply lookup_insert_eq |].
      rewrite (Hkey _ _ _ Hsave). apply api_reset_istDayKey.
  - intros uid body db db1. unfold ApiServe.putBranch.
    destruct (save (db !! uid) _) as [stored |] eqn:Hsave; [| done].
    intros [= <-]. exists stored. split; [apply lookup_insert_eq |].
    rewrite (Hkey _ _ _ Hsave). rewrite api_overlay_istDayKey. apply api_reset_istDayKey.
  - intros created q db db1 doc. unfold ExpressServe.getBranch.
    destruct (db !! userIdOf q) as [found |].
    + destruct (save (Some found) _) as [stored |] eqn:Hsave; [| done].
      intros [= <- <-]. split; [apply express_reset_istDayKey |].
      exists stored. split; [apply lookup_insert_eq |].
      rewrite (Hkey _ _ _ Hsave). apply express_reset_istDayKey.
    + destruct (save None _) as [created0 |]; [| done].
      destruct (save (Some created0) _) as [stored |] eqn:Hsave; [| done].
      intros [= <- <-]. split; [apply express_reset_istDayKey |].
      exists stored. split; [apply lookup_insert_eq |].
      rewrite (Hkey _ _ _ Hsave). apply express_reset_istDayKey.
  - intros q body db db1. unfold ExpressServe.putBranch.
    destruct (save (db !! userIdOf q) _) as [stored |] eqn:Hsave; [| done].
    intros [= <-]. exists stored. split; [apply lookup_insert_eq |].
    rewrite (Hkey _ _ _ Hsave). rewrite express_overlay_istDayKey.
    apply express_reset_istDayKey.
Qed.

(* ================================================================== *)
(** * Properties of the CORS policy *)
(* ================================================================== *)

Section CorsFacts.

Variable trim : string → string.

Lemma parseOrigins_nonempty_entries (env : option string) (a : string) :
  a ∈ parseOrigins trim env → a ≠ "".
Proof.
  unfold parseOrigins. rewrite list_elem_of_filter. by intros [? _].
Qed.

Lemma parseOrigins_blank (env : option string) :
  (∀ piece, piece ∈ splitOn comma (default "" env) → trim piece = "") →
  parseOrigins trim env = [].
Proof.
  intros Hblank. unfold parseOrigins.
  induction (splitOn comma (default "" env)) as [| piece pieces IH]; [done |].
  rewrite fmap_cons, filter_cons.
  rewrite (Hblank piece) by apply list_elem_of_here.
  rewrite decide_False by (by intros H).
  apply IH. intros p Hp. apply Hblank. by apply list_elem_of_further.
Qed.

(** The value [setCors] leaves under [Access-Control-Allow-Origin]. *)
Lemma setCors_allow_origin_lookup (env origin : option string) (res : Headers) :
  setCors trim env origin res !! "Access-Control-Allow-Origin"
  = match origin with
    | None => Some "*"
    | Some o =>
        if bool_decide (o = "") then Some "*"
        else if bool_decide (parseOrigins trim env = []) then Some o
        else if bool_decide (o ∈ parseOrigins trim env) then Some o
        else res !! "Access-Control-Allow-Origin"
    end.
Proof.
  unfold setCors.
  do 3 (rewrite lookup_insert_ne by discriminate).
  destruct origin as [o |]; [| by rewrite lookup_insert_eq].
  repeat case_bool_decide; by rewrite ?lookup_insert_eq.
Qed.

(** X12. [setCors] never names a foreign origin: on a response that had
    no [Access-Control-Allow-Origin] header, the header it leaves is
    either [*], and then the request carried no origin, or the request's
    own origin, and then the allow-list is empty or contains it. *)
Theorem setCors_names_only_the_caller (env origin : option string) (res : Headers) (v : string) :
  res !! "Access-Control-Allow-Origin" = None →
  setCors trim env origin res !! "Access-Control-Allow-Origin" = Some v →
  (v = "*" ∧ (origin = None ∨ origin = Some "")) ∨
  (origin = Some v ∧ v ≠ "" ∧
   (parseOrigins trim env = [] ∨ v ∈ parseOrigins trim env)).
Proof.
  intros Hres. rewrite setCors_allow_origin_lookup.
  destruct origin as [o |].
  - repeat case_bool_decide; intros Hv; simplify_eq.
    + left. by split; [| right].
    + right. by split_and!; [| | left].
    + right. by split_and!; [| | right].
  - intros Hv; simplify_eq. left. by split; [| left].
Qed.

(** X13. The two entry points decide alike on an origin: with the same
    allow-list value, the [origin] callback of the Express application
    accepts exactly when [setCors] sets [Access-Control-Allow-Origin] on a
    response that had none; a refusal names the origin. *)
Theorem cors_policies_agree (env origin : option string) (res : Headers) :
  res !! "Access-Control-Allow-Origin" = None →
  (corsOrigin trim env origin = CorsAllowed ↔
   is_Some (setCors trim env origin res !! "Access-Control-Allow-Origin")) ∧
  (∀ msg, corsOrigin trim env origin = CorsRefused msg →
     ∃ o, origin = Some o ∧ msg = "Not allowed by CORS: " +:+ o ∧
          o ∉ parseOrigins trim env).
Proof.
  intros Hres. rewrite setCors_allow_origin_lookup. unfold corsOrigin.
  destruct origin as [o |].
  - repeat case_bool_decide; rewrite ?Hres; (split; [split |]);
      try done; try (by eauto); try (by intros [? ?]);
      intros msg Hmsg; simplify_eq; by eauto.
  - split; [split; by eauto | done].
Qed.

(** X14. An allow-list with no entry lets every origin in: when every
    comma-separated piece of the variable trims to the empty string (the
    variable unset or empty among them), [setCors] reflects any origin and
    the Express callback accepts it. *)
Theorem cors_blank_list_is_permissive (env : option string) (o : string) (res : Headers) :
  (∀ piece, piece ∈ splitOn comma (default "" env) → trim piece = "") →
  o ≠ "" →
  setCors trim env (Some o) res !! "Access-Control-Allow-Origin" = Some o ∧
  corsOrigin trim env (Some o) = CorsAllowed.
Proof.
  intros Hblank Ho. rewrite setCors_allow_origin_lookup. unfold corsOrigin.
  rewrite (parseOrigins_blank env Hblank).
  by rewrite (bool_decide_eq_false_2 _ Ho), bool_decide_eq_true_2.
Qed.

(** X15. [setCors] always sets [Vary], [Access-Control-Allow-Methods] and
    [Access-Control-Allow-Headers] to their fixed values, whatever the
    origin and the allow-list, and leaves every header other than these
    three and [Access-Control-Allow-Origin] as it was. *)
Theorem setCors_fixed_headers (env origin : option string) (res : Headers) :
  setCors trim env origin res !! "Vary" = Some "Origin" ∧
  setCors trim env origin res !! "Access-Control-Allow-Methods" = Some "GET,PUT,OPTIONS" ∧
  setCors trim env origin res !! "Access-Control-Allow-Headers"
  = Some "Content-Type, Authorization" ∧
  ∀ name : string,
    name ≠ "Access-Control-Allow-Origin" → name ≠ "Vary" →
    name ≠ "Access-Control-Allow-Methods" → name ≠ "Access-Control-Allow-Headers" →
    setCors trim env origin res !! name = res !! name.
Proof.
  unfold setCors. split_and!.
  - by rewrite !lookup_insert_ne, lookup_insert_eq by discriminate.
  - by rewrite lookup_insert_ne, lookup_insert_eq by discriminate.
  - by rewrite lookup_insert_eq.
  - intros name H1 H2 H3 H4.
    do 3 (rewrite lookup_insert_ne by done).
    destruct origin as [o |]; repeat case_bool_decide; by rewrite ?lookup_insert_ne.
Qed.

End CorsFacts.

Lemma setCors_names_only_the_caller_witness :
  ("https://a.example" = "*" ∧ (Some "https://a.example" = None ∨
                                Some "https://a.example" = Some "")) ∨
  (Some "https://a.example" = Some "https://a.example" ∧ "https://a.example" ≠ "" ∧
   (parseOrigins trimAscii (Some " https://a.example , https://b.example") = [] ∨
    "https://a.example" ∈ parseOrigins trimAscii (Some " https://a.example , https://b.example"))).
Proof.
  apply (setCors_names_only_the_caller trimAscii
           (Some " https://a.example , https://b.example") (Some "https://a.example") ∅);
    reflexivity.
Defined.

Lemma cors_policies_agree_witness :
  corsOrigin trimAscii (Some "https://a.example") (Some "https://b.example")
  = CorsRefused "Not allowed by CORS: https://b.example" ∧
  setCors trimAscii (Some "https://a.example") (Some "https://b.example") ∅
    !! "Access-Control-Allow-Origin" = None.
Proof.
  split; [reflexivity |].
  pose proof (proj1 (cors_policies_agree trimAscii (Some "https://a.example")
                       (Some "https://b.example") ∅ eq_refl)) as [_ Hset].
  destruct (setCors trimAscii (Some "https://a.example") (Some "https://b.example") ∅
              !! "Access-Control-Allow-Origin") as [v |] eqn:Hv; [| reflexivity].
  discriminate (Hset (ex_intro _ v eq_refl)).
Defined.

Lemma cors_blank_list_is_permissive_witness :
  setCors trimAscii (Some " , ") (Some "https://b.example") ∅
    !! "Access-Control-Allow-Origin" = Some "https://b.example" ∧
  corsOrigin trimAscii (Some " , ") (Some "https://b.example") = CorsAllowed.
Proof.
  apply (cors_blank_list_is_permissive trimAscii (Some " , ") "https://b.example" ∅).
  - intros piece Hpiece. vm_compute in Hpiece.
    apply elem_of_cons in Hpiece as [-> | Hpiece]; [reflexivity |].
    apply elem_of_cons in Hpiece as [-> | Hpiece]; [reflexivity |].
    by apply elem_of_nil in Hpiece.
  - discriminate.
Defined.

(* ================================================================== *)
(** * Properties of the cached connection *)
(* ================================================================== *)

Section MongoFacts.

Context {Conn Err : Type}.

Implicit Types (c : Mongo.Cached Conn Err) (dial : string → Conn + Err).
Implicit Types (calls : list (option string * (string → Conn + Err))).

Lemma connectMongo_cached_conn uri dial c (k : Conn) :
  Mongo.conn c = Some k →
  Mongo.connectMongo uri dial c
  = {| Mongo.cacheAfter := c; Mongo.returned := inl k; Mongo.dialled := None |}.
Proof. intros Hk. unfold Mongo.connectMongo. by rewrite Hk. Qed.

Lemma connectMongo_cached_rejection uri dial c (e : Err) :
  Mongo.conn c = None → Mongo.promise c = Some (inr e) →
  Mongo.connectMongo uri dial c
  = {| Mongo.cacheAfter := c; Mongo.returned := inr (Mongo.Rejected e);
       Mongo.dialled := None |}.
Proof. intros Hk Hp. unfold Mongo.connectMongo. by rewrite Hk, Hp. Qed.

Lemma connectMongo_success uri dial c (k : Conn) :
  Mongo.returned (Mongo.connectMongo uri dial c) = inl k →
  Mongo.conn (Mongo.cacheAfter (Mongo.connectMongo uri dial c)) = Some k.
Proof.
  unfold Mongo.connectMongo, Mongo.awaitPromise.
  destruct (Mongo.conn c) as [k' |] eqn:Hk; simpl; [by intros [= ->] |].
  destruct (Mongo.promise c) as [[k' | e] |]; simpl; try (by intros [= ->]); try done.
  destruct (Mongo.uriOf uri) as [u |]; simpl; [| done].
  destruct (dial u) as [k' | e]; simpl; [by intros [= ->] | done].
Qed.

Lemma connectMongo_rejection uri dial c (e : Err) :
  Mongo.returned (Mongo.connectMongo uri dial c) = inr (Mongo.Rejected e) →
  Mongo.conn (Mongo.cacheAfter (Mongo.connectMongo uri dial c)) = None ∧
  Mongo.promise (Mongo.cacheAfter (Mongo.connectMongo uri dial c)) = Some (inr e).
Proof.
  unfold Mongo.connectMongo, Mongo.awaitPromise.
  destruct (Mongo.conn c) as [k' |] eqn:Hk; simpl; [done |].
  destruct (Mongo.promise c) as [[k' | e'] |] eqn:Hp; simpl; try done.
  - by intros [= ->].
  - destruct (Mongo.uriOf uri) as [u |]; simpl; [| done].
    destruct (dial u) as [k' | e'] eqn:Hd; simpl; [done |].
    by intros [= ->].
Qed.

(** X16. Once [connectMongo] has returned a connection, every later call
    returns that connection, dials nothing and leaves the cache alone,
    whatever [MONGODB_URI] holds by then, unset included. *)
Theorem connectMongo_reuses_connection uri dial c (k : Conn) calls :
  Mongo.returned (Mongo.connectMongo uri dial c) = inl k →
  Forall (λ r, Mongo.returned r = inl k ∧ Mongo.dialled r = None ∧
               Mongo.cacheAfter r = Mongo.cacheAfter (Mongo.connectMongo uri dial c))
         (Mongo.runCalls Mongo.connectMongo calls
            (Mongo.cacheAfter (Mongo.connectMongo uri dial c))).
Proof.
  intros Hok. apply connectMongo_success in Hok.
  induction calls as [| [uri' dial'] calls IH]; simpl; [constructor |].
  rewrite (connectMongo_cached_conn uri' dial' _ k Hok); simpl.
  constructor; [done | apply IH].
Qed.

(** X17. A rejected dial is remembered: once [connectMongo] has thrown
    the rejection of [mongoose.connect], every later call throws the same
    rejection and never dials again, whatever the URI and whatever a new
    dial would give. *)
Theorem connectMongo_never_retries uri dial c (e : Err) calls :
  Mongo.returned (Mongo.connectMongo uri dial c) = inr (Mongo.Rejected e) →
  Forall (λ r, Mongo.returned r = inr (Mongo.Rejected e) ∧ Mongo.dialled r = None)
         (Mongo.runCalls Mongo.connectMongo calls
            (Mongo.cacheAfter (Mongo.connectMongo uri dial c))).
Proof.
  intros Hrej. apply connectMongo_rejection in Hrej as [Hk Hp].
  induction calls as [| [uri' dial'] calls IH]; simpl; [constructor |].
  rewrite (connectMongo_cached_rejection uri' dial' _ e Hk Hp); simpl.
  constructor; [done | apply IH].
Qed.

Lemma awaitPromise_keeps_promise c (p : Conn + Err) (d : option string) :
  is_Some (Mongo.promise c) →
  is_Some (Mongo.promise (Mongo.cacheAfter (Mongo.awaitPromise c p d))).
Proof. by destruct p. Qed.

(** A cache that holds a connection or a promise is never dialled from,
    and stays such a cache. *)
Lemma connect_settled (connect : option string → (string → Conn + Err) →
                                 Mongo.Cached Conn Err → Mongo.Call Conn Err) uri dial c :
  connect = Mongo.connectMongo ∨ connect = Mongo.connectDb →
  is_Some (Mongo.conn c) ∨ is_Some (Mongo.promise c) →
  Mongo.dialled (connect uri dial c) = None ∧
  (is_Some (Mongo.conn (Mongo.cacheAfter (connect uri dial c))) ∨
   is_Some (Mongo.promise (Mongo.cacheAfter (connect uri dial c)))).
Proof.
  intros [-> | ->] Hset; unfold Mongo.connectMongo, Mongo.connectDb.
  - destruct (Mongo.conn c) as [k |] eqn:Hk; simpl; [by rewrite Hk; eauto |].
    destruct Hset as [[? [=]] | [p Hp]]. rewrite Hp.
    destruct p; simpl; split; try done; [left | right]; by eauto.
  - destruct (Mongo.uriOf uri); simpl; [| done].
    destruct (Mongo.conn c) as [k |] eqn:Hk; simpl; [by rewrite Hk; eauto |].
    destruct Hset as [[? [=]] | [p Hp]]. rewrite Hp.
    destruct p; simpl; split; try done; [left | right]; by eauto.
Qed.

Lemma connect_dialled_settles
    (connect : option string → (string → Conn + Err) →
               Mongo.Cached Conn Err → Mongo.Call Conn Err) uri dial c :
  connect = Mongo.connectMongo ∨ connect = Mongo.connectDb →
  is_Some (Mongo.dialled (connect uri dial c)) →
  is_Some (Mongo.conn (Mongo.cacheAfter (connect uri dial c))) ∨
  is_Some (Mongo.promise (Mongo.cacheAfter (connect uri dial c))).
Proof.
  intros [-> | ->]; unfold Mongo.connectMongo, Mongo.connectDb.
  - destruct (Mongo.conn c); simpl; [by intros [? [=]] |].
    destruct (Mongo.promise c) as [p |]; simpl.
    { destruct p; simpl; by intros [? [=]]. }
    destruct (Mongo.uriOf uri); simpl; [| by intros [? [=]]].
    intros _. destruct (dial s); simpl; [left | right]; by eauto.
  - destruct (Mongo.uriOf uri); simpl; [| by intros [? [=]]].
    destruct (Mongo.conn c); simpl; [by intros [? [=]] |].
    destruct (Mongo.promise c) as [p |]; simpl.
    { destruct p; simpl; by intros [? [=]]. }
    intros _. destruct (dial s); simpl; [left | right]; by eauto.
Qed.

Lemma dials_settled
    (connect : option string → (string → Conn + Err) →
               Mongo.Cached Conn Err → Mongo.Call Conn Err) calls c :
  connect = Mongo.connectMongo ∨ connect = Mongo.connectDb →
  is_Some (Mongo.conn c) ∨ is_Some (Mongo.promise c) →
  Mongo.dials (Mongo.runCalls connect calls c) = 0%nat.
Proof.
  intros Hconnect. revert c.
  induction calls as [| [uri dial] calls IH]; intros c Hset; [done |].
  destruct (connect_settled connect uri dial c Hconnect Hset) as [Hnone Hset'].
  unfold Mongo.dials in *; simpl. rewrite filter_cons.
  rewrite decide_False by (rewrite Hnone; by intros [? [=]]).
  by apply IH.
Qed.

(** X18. One dial at most: in any run of calls of [connectMongo], or of
    [connectDb], from any cache, [mongoose.connect] is called at most once,
    and not at all when the cache already holds a connection or a promise. *)
Theorem connect_dials_at_most_once calls c :
  (Mongo.dials (Mongo.runCalls Mongo.connectMongo calls c) ≤ 1)%nat ∧
  (Mongo.dials (Mongo.runCalls Mongo.connectDb calls c) ≤ 1)%nat ∧
  (is_Some (Mongo.conn c) ∨ is_Some (Mongo.promise c) →
   Mongo.dials (Mongo.runCalls Mongo.connectMongo calls c) = 0%nat ∧
   Mongo.dials (Mongo.runCalls Mongo.connectDb calls c) = 0%nat).
Proof.
  assert (Hone : ∀ connect, connect = Mongo.connectMongo ∨ connect = Mongo.connectDb →
                   ∀ calls c, (Mongo.dials (Mongo.runCalls connect calls c) ≤ 1)%nat).
  { intros connect Hconnect calls'.
    induction calls' as [| [uri dial] calls' IH]; intros c'; [apply Nat.le_0_l |].
    unfold Mongo.dials in *; simpl. rewrite filter_cons.
    destruct (decide (is_Some (Mongo.dialled (connect uri dial c')))) as [Hd | Hd].
    - pose proof (dials_settled connect calls' _ Hconnect
                    (connect_dialled_settles connect uri dial c' Hconnect Hd)) as H0.
      unfold Mongo.dials in H0. simpl. by rewrite H0.
    - apply IH. }
  split_and!.
  - apply Hone. by left.
  - apply Hone. by right.
  - intros Hset. split; apply dials_settled; auto.
Qed.

(** X19. The two connection helpers differ only on a missing URI. With
    [MONGODB_URI] set they do the same; with it unset or empty, [connectDb]
    throws and leaves the cache alone even when a connection is cached,
    while [connectMongo] returns the cached connection, and throws for the
    missing URI only when nothing is cached, which it does not remember. *)
Theorem connectDb_checks_uri_first uri dial c :
  (is_Some (Mongo.uriOf uri) →
   Mongo.connectDb uri dial c = Mongo.connectMongo uri dial c) ∧
  (Mongo.uriOf uri = None →
   Mongo.connectDb uri dial c
   = {| Mongo.cacheAfter := c; Mongo.returned := inr Mongo.MissingUri;
        Mongo.dialled := None |}) ∧
  (∀ k, Mongo.conn c = Some k →
   Mongo.returned (Mongo.connectMongo uri dial c) = inl k) ∧
  (Mongo.returned (Mongo.connectMongo uri dial c) = inr Mongo.MissingUri →
   Mongo.uriOf uri = None ∧ Mongo.cacheAfter (Mongo.connectMongo uri dial c) = c ∧
   Mongo.conn c = None ∧ Mongo.promise c = None).
Proof.
  unfold Mongo.connectDb, Mongo.connectMongo. split_and!.
  - intros [u ->]. by destruct (Mongo.conn c), (Mongo.promise c).
  - by intros ->.
  - by intros k ->.
  - destruct (Mongo.conn c); simpl; [done |].
    destruct (Mongo.promise c) as [[? | ?] |]; simpl; try done.
    destruct (Mongo.uriOf uri); simpl; [| done].
    by destruct (dial s).
Qed.

End MongoFacts.

Lemma connect_dials_at_most_once_witness :
  Mongo.dials (Mongo.runCalls (Conn := nat) (Err := string) Mongo.connectMongo
                 [(Some "mongodb://db", λ _, inl 7%nat); (None, λ _, inr "down")]
                 {| Mongo.conn := None; Mongo.promise := Some (inl 7%nat) |}) = 0%nat.
Proof.
  apply (proj2 (proj2 (connect_dials_at_most_once
                         [(Some "mongodb://db", λ _, inl 7%nat); (None, λ _, inr "down")]
                         {| Mongo.conn := None; Mongo.promise := Some (inl 7%nat) |}))).
  right. by eexists.
Defined.

Lemma connectMongo_reuses_connection_witness :
  Forall (λ r, Mongo.returned r = inl 7%nat ∧ Mongo.dialled r = None ∧
               Mongo.cacheAfter r
               = Mongo.cacheAfter (Mongo.connectMongo (Err := string) (Some "mongodb://db")
                                     (λ _, inl 7%nat) Mongo.emptyCache))
         (Mongo.runCalls Mongo.connectMongo [(None, λ _, inr "down")]
            (Mongo.cacheAfter (Mongo.connectMongo (Err := string) (Some "mongodb://db")
                                 (λ _, inl 7%nat) Mongo.emptyCache))).
Proof.
  apply (connectMongo_reuses_connection (Some "mongodb://db") (λ _, inl 7%nat)
           Mongo.emptyCache 7%nat [(None, λ _, inr "down")]).
  reflexivity.
Defined.

Lemma connectMongo_never_retries_witness :
  Forall (λ r, Mongo.returned r = inr (Mongo.Rejected "down") ∧ Mongo.dialled r = None)
         (Mongo.runCalls Mongo.connectMongo [(Some "mongodb://db", λ _, inl 7%nat)]
            (Mongo.cacheAfter (Mongo.connectMongo (Conn := nat) (Some "mongodb://db")
                                 (λ _, inr "down") Mongo.emptyCache))).
Proof.
  apply (connectMongo_never_retries (Some "mongodb://db") (λ _, inr "down")
           Mongo.emptyCache "down" [(Some "mongodb://db", λ _, inl 7%nat)]).
  reflexivity.
Defined.

Lemma connectDb_checks_uri_first_witness :
  Mongo.connectDb (Conn := nat) (Err := string) None (λ _, inl 7%nat)
    {| Mongo.conn := Some 7%nat; Mongo.promise := Some (inl 7%nat) |}
  = {| Mongo.cacheAfter := {| Mongo.conn := Some 7%nat; Mongo.promise := Some (inl 7%nat) |};
       Mongo.returned := inr Mongo.MissingUri;
       Mongo.dialled := None |}.
Proof.
  apply (proj1 (proj2 (connectDb_checks_uri_first None (λ _, inl 7%nat) _))).
  reflexivity.
Defined.


(* ================================================================== *)
(** * Properties of the whole serverless handler *)
(* ================================================================== *)

Lemma saveWithoutEmptySettings_keeps_dayKey : apiSaveKeepsDayKey saveWithoutEmptySettings.
Proof. by intros found doc stored [= <-]. Qed.

Lemma saveWithoutEmptySettings_keeps_stored : saveKeepsStored saveWithoutEmptySettings.
Proof.
  intros found doc stored [= <-]. unfold saveWithoutEmptySettings; simpl.
  do 2 f_equal.
  destruct (bool_decide (size (Api.reminderSettings doc) = 0%nat)) eqn:Hdoc.
  - reflexivity.
  - by rewrite Hdoc.
Qed.

(** The save matters: a first PUT of [{ reminderSettings: {} }] hands an
    empty [reminderSettings] to the save, and with a save that leaves empty
    objects out the collection holds the schema default instead. *)
Example put_empty_settings_reads_back_default :
  ∃ stored,
    (ApiServe.putBranch saveWithoutEmptySettings "2024-01-02" "alice"
       (Some emptySettingsOnly) ∅).1 !! "alice" = Some stored ∧
    Api.reminderSettings stored = defaultReminderSettings ∧
    Api.reminderSettings
      (Api.overlay emptySettingsOnly
         (Api.applyISTDailyReset "2024-01-02" (Api.newAppState "alice"))) = ∅.
Proof.
  eexists. split_and!; [apply lookup_insert_eq | reflexivity | reflexivity].
Qed.

Lemma get_after_put_same_day_witness :
  ∃ stored : Api.AppState,
    (<["alice" := stored]> (∅ : Api.Db)) !! "alice" = Some stored ∧
    saveWithoutEmptySettings ((∅ : Api.Db) !! "alice")
      (Api.overlay (default emptyPayload (Some emptySettingsOnly))
         (Api.applyISTDailyReset "2024-01-02" (apiStored "alice" ∅))) = Some stored ∧
    ApiServe.getBranch saveWithoutEmptySettings "2024-01-02" "2024-01-02" "alice"
      (<["alice" := stored]> ∅)
    = (<["alice" := stored]> ∅, ApiServe.Document200 stored).
Proof.
  destruct (proj1 (get_after_put_same_day "2024-01-02" (Some emptySettingsOnly))
              saveWithoutEmptySettings "2024-01-02" "alice" ∅ _
              saveWithoutEmptySettings_keeps_dayKey saveWithoutEmptySettings_keeps_stored
              eq_refl) as (stored & Hlook & Hsave & Hget).
  exists stored. split_and!; [apply lookup_insert_eq | exact Hsave |].
  injection Hsave as <-. exact Hget.
Defined.

Lemma requests_stamp_the_record_witness :
  ∃ stored,
    (ApiServe.putBranch saveWithoutEmptySettings "2024-01-02" "alice"
       (Some emptySettingsOnly) ∅).1 !! "alice" = Some stored ∧
    Api.istDayKey stored = "2024-01-02".
Proof.
  apply (proj2 (proj1 (requests_stamp_the_record "2024-01-02") saveWithoutEmptySettings
                  saveWithoutEmptySettings_keeps_dayKey) "alice" (Some emptySettingsOnly) ∅).
  reflexivity.
Defined.

Section ServeFacts.

Context {Conn Err : Type}.
Variable trim : string → string.

Implicit Types (env : ApiServe.Env Conn Err) (w : ApiServe.World Conn Err).

Lemma route_other_method (save : ApiServe.Save) (created today : string)
    (req : Request) (db : Api.Db) :
  method req ≠ GET → method req ≠ PUT →
  ApiServe.route save created today req db = (db, ApiServe.MethodNotAllowed405).
Proof.
  intros Hget Hput. unfold ApiServe.route. by destruct (method req).
Qed.

(** X20. What the handler does is decided by the method and the
    connection, in this order. A preflight is answered 204 with nothing
    touched and no connection attempt. For any other method, a failed
    connection is answered 500 with the collection as it was, an
    unsupported method included; with the connection there, a GET or a PUT
    runs its branch and any other method is answered 405 with the
    collection as it was. So the collection changes only through a GET or
    a PUT that found a connection. *)
Theorem serve_guards_the_store env (origin : option string) (req : Request)
    (res : Headers) w :
  let s := ApiServe.serve trim env origin req res w in
  let call := Mongo.connectMongo (ApiServe.mongodbUri env) (ApiServe.dial env)
                (ApiServe.cached w) in
  let ran := ApiServe.route (ApiServe.persist env) (ApiServe.createdKey env)
               (ApiServe.todayIST env) req (ApiServe.store w) in
  (method req = OPTIONS →
     ApiServe.outcome s = ApiServe.Answered ApiServe.NoContent204 ∧
     ApiServe.world s = w ∧ ApiServe.dialledUri s = None) ∧
  (method req ≠ OPTIONS →
     ApiServe.cached (ApiServe.world s) = Mongo.cacheAfter call ∧
     ApiServe.dialledUri s = Mongo.dialled call ∧
     (∀ e, Mongo.returned call = inr e →
        ApiServe.outcome s = ApiServe.ConnectFailed500 e ∧
        ApiServe.store (ApiServe.world s) = ApiServe.store w) ∧
     (∀ k, Mongo.returned call = inl k →
        ApiServe.outcome s = ApiServe.Answered ran.2 ∧
        ApiServe.store (ApiServe.world s) = ran.1 ∧
        (method req = OtherMethod →
           ApiServe.outcome s = ApiServe.Answered ApiServe.MethodNotAllowed405 ∧
           ApiServe.store (ApiServe.world s) = ApiServe.store w))) ∧
  (ApiServe.store (ApiServe.world s) ≠ ApiServe.store w →
     (method req = GET ∨ method req = PUT) ∧
     ∃ k, Mongo.returned call = inl k).
Proof.
  simpl. unfold ApiServe.serve.
  destruct (Mongo.returned (Mongo.connectMongo _ _ _)) as [k | e] eqn:Hcall;
    destruct (method req) eqn:Hm; simpl;
    unfold ApiServe.route; rewrite ?Hm; simpl;
    try destruct (ApiServe.getBranch _ _ _ _ _) as [db' a'];
    try destruct (ApiServe.putBranch _ _ _ _ _) as [db' a']; simpl;
    split_and!; try done; try (by eauto);
    intros _; split_and!; try done;
    intros; simplify_eq; split_and!; try done; by eauto.
Qed.

Lemma serve_on_cached_rejection env (origin : option string) (req : Request)
    (res : Headers) w (e : Err) :
  Mongo.conn (ApiServe.cached w) = None →
  Mongo.promise (ApiServe.cached w) = Some (inr e) →
  let s := ApiServe.serve trim env origin req res w in
  ApiServe.world s = w ∧ ApiServe.dialledUri s = None ∧
  ApiServe.outcome s
  = match method req with
    | OPTIONS => ApiServe.Answered ApiServe.NoContent204
    | GET | PUT | OtherMethod => ApiServe.ConnectFailed500 (Mongo.Rejected e)
    end.
Proof.
  intros Hk Hp; simpl. unfold ApiServe.serve.
  rewrite (connectMongo_cached_rejection _ _ _ e Hk Hp); simpl.
  destruct w as [c db]; destruct (method req); simpl; split_and!; auto.
Qed.

Lemma serve_on_cached_conn env (origin : option string) (req : Request)
    (res : Headers) w (k : Conn) :
  Mongo.conn (ApiServe.cached w) = Some k →
  let s := ApiServe.serve trim env origin req res w in
  ApiServe.cached (ApiServe.world s) = ApiServe.cached w ∧
  ApiServe.dialledUri s = None ∧
  ∃ a, ApiServe.outcome s = ApiServe.Answered a.
Proof.
  intros Hk; simpl. unfold ApiServe.serve.
  rewrite (connectMongo_cached_conn _ _ _ k Hk); simpl.
  destruct (method req); simpl;
    try destruct (ApiServe.route _ _ _ _ _) as [db' a']; simpl; split_and!; eauto.
Qed.

(** X21. One failed connection disables the instance: once a request has
    been answered 500 because [mongoose.connect] was rejected, every later
    request that is not a preflight, whatever its method, is answered 500
    with that same rejection, every later preflight is answered 204,
    nothing is dialled again and the cache and the collection stay as the
    failed request left them. *)
Theorem serve_after_rejected_dial env (origin : option string) (req : Request)
    (res : Headers) w (e : Err) (arrivals : list (ApiServe.Arrival Conn Err)) :
  let first := ApiServe.serve trim env origin req res w in
  ApiServe.outcome first = ApiServe.ConnectFailed500 (Mongo.Rejected e) →
  Forall2 (λ a s,
             ApiServe.world s = ApiServe.world first ∧
             ApiServe.dialledUri s = None ∧
             ApiServe.outcome s
             = match method (ApiServe.arrivalRequest a) with
               | OPTIONS => ApiServe.Answered ApiServe.NoContent204
               | GET | PUT | OtherMethod => ApiServe.ConnectFailed500 (Mongo.Rejected e)
               end)
          arrivals (ApiServe.serveAll trim arrivals (ApiServe.world first)).
Proof.
  intros first Hfirst.
  assert (Hk : Mongo.conn (ApiServe.cached (ApiServe.world first)) = None ∧
               Mongo.promise (ApiServe.cached (ApiServe.world first)) = Some (inr e)).
  { revert Hfirst. unfold first, ApiServe.serve.
    destruct (method req); simpl; try done;
      destruct (Mongo.returned (Mongo.connectMongo _ _ _)) as [k | e'] eqn:Hcall; simpl;
      try destruct (ApiServe.route _ _ _ _ _) as [db' a']; simpl; try done;
      intros [= ->]; by apply connectMongo_rejection. }
  destruct Hk as [Hk Hp]. clear Hfirst.
  set (w' := ApiServe.world first) in *. clearbody w'. clear first.
  induction arrivals as [| a arrivals IH]; simpl; [constructor |].
  destruct (serve_on_cached_rejection (ApiServe.arrivalEnv a) (ApiServe.arrivalOrigin a)
              (ApiServe.arrivalRequest a) (ApiServe.arrivalHeaders a) w' e Hk Hp)
    as (Hw & Hd & Hout).
  constructor; [done |]. rewrite Hw. apply IH.
Qed.

(** X22. Once a request other than a preflight has got past the
    connection step, whatever it was then answered, every later request
    gets past it too: none is answered 500 for the connection, none
    dials and the cache stays as it is, whatever happens to [MONGODB_URI].
    (A later request can still be answered 500 by a rejected save.) *)
Theorem serve_after_connection env (origin : option string) (req : Request)
    (res : Headers) w (a0 : ApiServe.Answer) (arrivals : list (ApiServe.Arrival Conn Err)) :
  let first := ApiServe.serve trim env origin req res w in
  method req ≠ OPTIONS →
  ApiServe.outcome first = ApiServe.Answered a0 →
  Forall (λ s, ApiServe.dialledUri s = None ∧
               ApiServe.cached (ApiServe.world s) = ApiServe.cached (ApiServe.world first) ∧
               ∀ e, ApiServe.outcome s ≠ ApiServe.ConnectFailed500 e)
         (ApiServe.serveAll trim arrivals (ApiServe.world first)).
Proof.
  intros first Hm Hfirst.
  assert (Hk : ∃ k, Mongo.conn (ApiServe.cached (ApiServe.world first)) = Some k).
  { revert Hfirst. unfold first, ApiServe.serve.
    destruct (method req); simpl; try done;
      destruct (Mongo.returned (Mongo.connectMongo _ _ _)) as [k | e'] eqn:Hcall; simpl;
      try destruct (ApiServe.route _ _ _ _ _) as [db' a']; simpl; try done;
      intros _; exists k; by apply connectMongo_success. }
  destruct Hk as [k Hk]. clear Hfirst.
  set (c' := ApiServe.cached (ApiServe.world first)) in *.
  assert (Hc : ApiServe.cached (ApiServe.world first) = c') by done.
  clearbody c'. revert Hc.
  generalize (ApiServe.world first). clear first. intros w' Hc.
  revert w' Hc.
  induction arrivals as [| a arrivals IH]; intros w' Hc; simpl; [constructor |].
  rewrite <- Hc in Hk.
  destruct (serve_on_cached_conn (ApiServe.arrivalEnv a) (ApiServe.arrivalOrigin a)
              (ApiServe.arrivalRequest a) (ApiServe.arrivalHeaders a) w' k Hk)
    as (Hc' & Hd & a' & Hout).
  constructor.
  - split_and!; [done | by rewrite Hc' | intros e0; by rewrite Hout].
  - apply IH. by rewrite Hc'.
Qed.

End ServeFacts.

Lemma serve_guards_the_store_witness :
  ApiServe.outcome
    (ApiServe.serve (Conn := nat) (Err := string) trimAscii
       (ApiServe.mkEnv None None (λ _, inr "down") saveVerbatim "2024-01-02" "2024-01-02")
       (Some "https://a.example") (mkRequest OtherMethod None None) ∅
       (ApiServe.mkWorld Mongo.emptyCache ∅))
  = ApiServe.ConnectFailed500 Mongo.MissingUri.
Proof.
  pose proof (serve_guards_the_store (Conn := nat) (Err := string) trimAscii
                (ApiServe.mkEnv None None (λ _, inr "down") saveVerbatim
                   "2024-01-02" "2024-01-02")
                (Some "https://a.example") (mkRequest OtherMethod None None) ∅
                (ApiServe.mkWorld Mongo.emptyCache ∅)) as (_ & Hother & _).
  destruct (Hother ltac:(discriminate)) as (_ & _ & Hfail & _).
  exact (proj1 (Hfail Mongo.MissingUri eq_refl)).
Defined.

Lemma serve_after_rejected_dial_witness :
  let down := ApiServe.mkEnv (Conn := nat) (Err := string) None (Some "mongodb://db")
                (λ _, inr "down") saveVerbatim "2024-01-02" "2024-01-02" in
  let up := ApiServe.mkEnv (Conn := nat) (Err := string) None (Some "mongodb://db")
              (λ _, inl 7%nat) saveVerbatim "2024-01-02" "2024-01-02" in
  let get := mkRequest GET (Some "alice") None in
  let first := ApiServe.serve trimAscii down None get ∅ (ApiServe.mkWorld Mongo.emptyCache ∅) in
  Forall2 (λ a s,
             ApiServe.world s = ApiServe.world first ∧
             ApiServe.dialledUri s = None ∧
             ApiServe.outcome s
             = match method (ApiServe.arrivalRequest a) with
               | OPTIONS => ApiServe.Answered ApiServe.NoContent204
               | GET | PUT | OtherMethod => ApiServe.ConnectFailed500 (Mongo.Rejected "down")
               end)
          [ApiServe.mkArrival up None get ∅]
          (ApiServe.serveAll trimAscii [ApiServe.mkArrival up None get ∅]
             (ApiServe.world first)).
Proof.
  apply (serve_after_rejected_dial trimAscii
           (ApiServe.mkEnv (Conn := nat) (Err := string) None (Some "mongodb://db")
              (λ _, inr "down") saveVerbatim "2024-01-02" "2024-01-02")
           None (mkRequest GET (Some "alice") None) ∅
           (ApiServe.mkWorld Mongo.emptyCache ∅) "down").
  reflexivity.
Defined.

Lemma serve_after_connection_witness :
  let down := ApiServe.mkEnv (Conn := nat) (Err := string) None None
                (λ _, inr "down") saveRejecting "2024-01-03" "2024-01-03" in
  let up := ApiServe.mkEnv (Conn := nat) (Err := string) None (Some "mongodb://db")
              (λ _, inl 7%nat) saveVerbatim "2024-01-02" "2024-01-02" in
  let get := mkRequest GET (Some "alice") None in
  let first := ApiServe.serve trimAscii up None get ∅ (ApiServe.mkWorld Mongo.emptyCache ∅) in
  Forall (λ s, ApiServe.dialledUri s = None ∧
               ApiServe.cached (ApiServe.world s) = ApiServe.cached (ApiServe.world first) ∧
               ∀ e, ApiServe.outcome s ≠ ApiServe.ConnectFailed500 e)
         (ApiServe.serveAll trimAscii [ApiServe.mkArrival down None get ∅]
            (ApiServe.world first)).
Proof.
  apply (serve_after_connection trimAscii
           (ApiServe.mkEnv (Conn := nat) (Err := string) None (Some "mongodb://db")
              (λ _, inl 7%nat) saveVerbatim "2024-01-02" "2024-01-02")
           None (mkRequest GET (Some "alice") None) ∅
           (ApiServe.mkWorld Mongo.emptyCache ∅)
           (ApiServe.Document200 (Api.createAppState "alice" "2024-01-02"))).
  - discriminate.
  - reflexivity.
Defined.
